(** * A software clock for the micro:bit: the [timeAndDate] namespace

    Shallow embedding of [softdatetime.ts] and proofs about its calendar
    arithmetic, its resolver [timeFor] and the operations that set and
    read the clock.

    Numbers.  The TypeScript [number]s of the program are modelled as
    mathematical integers ([Z]): every constant of the program is an
    integer, the clock counts whole seconds, and the arguments of the
    exported functions are taken to be integers.  [Math.idiv] keeps its
    32-bit truncation ([Math_idiv]).  The only places where a value that
    is not a number could arise are reads of the table [cdoy] outside its
    bounds ([undefined]); they are modelled with [option], see [arr_at],
    [dateToDayOfYear] and the monad [M].

    State.  The three variables of the namespace form a [ClockState]; the
    exported functions run in a state monad over the [Device], which also
    holds the running time they read and the serial lines they write. *)

From Stdlib Require Import ZArith List Bool String Lia.
From Stdlib Require Import DecimalString.
Import ListNotations.
Local Open Scope Z_scope.

(** ** Primitives of the host language *)

(** [x | 0]: the signed 32-bit value of an integer. *)
Definition toInt32 (x : Z) : Z := (x + 2 ^ 31) mod 2 ^ 32 - 2 ^ 31.

(** [Math.idiv(x, y)]: signed 32-bit integer division, truncating towards
    zero, [((x | 0) / (y | 0)) | 0]. *)
Definition Math_idiv (x y : Z) : Z := toInt32 (Z.quot (toInt32 x) (toInt32 y)).

(** [x % y] on integers: the remainder has the sign of the dividend. *)
Definition js_rem (x y : Z) : Z := Z.rem x y.

(** [n + ""] for an integer [n]. *)
Definition numberToString (n : Z) : string := NilZero.string_of_int (Z.to_int n).

(** [a[i]] for an array of numbers: [None] stands for [undefined]. *)
Definition arr_at (a : list Z) (i : Z) : option Z :=
  if i <? 0 then None else nth_error a (Z.to_nat i).

(** [d <= a[i]]: a comparison with [undefined] is false. *)
Definition le_elem (d : Z) (e : option Z) : bool :=
  match e with
  | Some c => d <=? c
  | None => false
  end.

Module timeAndDate.

(** ** Enumerations *)

Inductive MornNight := AM | PM.

Inductive TimeUnit := Milliseconds | Seconds | Minutes | Hours | Days.

Inductive TimeFormat := AMPM | HHMM24hr.

Inductive DateFormat := MD | MDYYYY | YYYY_MM_DD.

(** The numeric value of a [TimeUnit], as used to index an array. *)
Definition TimeUnit_value (u : TimeUnit) : Z :=
  match u with
  | Milliseconds => 0
  | Seconds => 1
  | Minutes => 2
  | Hours => 3
  | Days => 4
  end.

(** ** Data *)

Record DateTime := mkDateTime {
  month : Z;      (* 1-12 Month of year *)
  day : Z;        (* 1-31 / Day of month *)
  year : Z;       (* Assumed to be 2020 or later *)
  hour : Z;       (* 0-23 / 24-hour format *)
  minute : Z;     (* 0-59 *)
  second : Z;     (* 0-59 *)
  dayOfYear : Z   (* 1-366 *)
}.

(** The three state variables of the namespace. *)
Record ClockState := mkClockState {
  startYear : Z;
  timeToSetpoint : Z;
  cpuTimeAtSetpoint : Z
}.

(** Cumulative days of year: month (1-based) to the completed days before it. *)
Definition cdoy : list Z :=
  [0; 0; 31; 59; 90; 120; 151; 181; 212; 243; 273; 304; 334; 365].

(** ** Time calculation *)

Definition isLeapYear (y : Z) : bool :=
  (js_rem y 400 =? 0) || (negb (js_rem y 100 =? 0) && (js_rem y 4 =? 0)).

(** [None]: [cdoy[m]] is [undefined], the sum is not a number. *)
Definition dateToDayOfYear (m d y : Z) : option Z :=
  match arr_at cdoy m with
  | None => None
  | Some c =>
      let dayOfYear := c + d in
      Some (if (m >? 2) && isLeapYear y then dayOfYear + 1 else dayOfYear)
  end.

(** The [for] loop of [dayOfYearToMonthAndDay], from index [i] on.  The
    guard [i < cdoy.length] holds exactly when [cdoy[i]] is defined
    ([arr_at_Some]); [fuel] bounds the number of iterations. *)
Fixpoint monthLoop (fuel : nat) (i d : Z) : DateTime :=
  match fuel with
  | O => mkDateTime (-1) (-1) 0 0 0 0 0
  | S fuel' =>
      match arr_at cdoy i with
      | None => mkDateTime (-1) (-1) 0 0 0 0 0
      | Some ci =>
          if le_elem d (arr_at cdoy (i + 1))
          then mkDateTime i (d - ci) 0 0 0 0 0
          else monthLoop fuel' (i + 1) d
      end
  end.

(** Returns a DateTime with just month and day (others 0). *)
Definition dayOfYearToMonthAndDay (d y : Z) : DateTime :=
  if isLeapYear y && (d =? 60) then mkDateTime 2 29 0 0 0 0 0
  else
    let d := if isLeapYear y && (d >? 60) then d - 1 else d in
    monthLoop (List.length cdoy) 1 d.

Definition secondsSoFarForYear (m d y hh mm ss : Z) : option Z :=
  match dateToDayOfYear m d y with
  | None => None
  | Some doy => Some ((((doy - 1) * 24 + hh) * 60 + mm) * 60 + ss)
  end.

(** The condition of the [while] loop of [timeFor]. *)
Definition yearLoop_cond (sSinceStartOfYear : Z) (leap : bool) : bool :=
  (negb leap && (sSinceStartOfYear >? 365 * 24 * 60 * 60))
  || (sSinceStartOfYear >? 366 * 24 * 60 * 60).

(** The [while] loop of [timeFor] on its variables
    [sSinceStartOfYear], [y] and [leap]. *)
Fixpoint yearLoop (fuel : nat) (sSinceStartOfYear y : Z) (leap : bool)
  : Z * Z * bool :=
  match fuel with
  | O => (sSinceStartOfYear, y, leap)
  | S fuel' =>
      if yearLoop_cond sSinceStartOfYear leap then
        let s' := if leap then sSinceStartOfYear - 366 * 24 * 60 * 60
                  else sSinceStartOfYear - 365 * 24 * 60 * 60 in
        let y' := y + 1 in
        yearLoop fuel' s' y' (isLeapYear y')
      else (sSinceStartOfYear, y, leap)
  end.

(** Iterations granted to the loop: each one takes off at least 365 days
    ([yearLoop_exits] shows that this is enough). *)
Definition yearLoop_fuel (sSinceStartOfYear : Z) : nat :=
  Z.to_nat (sSinceStartOfYear / (365 * 24 * 60 * 60)).

(** [timeFor] reads the three state variables: they are its argument [st]. *)
Definition timeFor (st : ClockState) (cpuTime : Z) : DateTime :=
  let deltaTime := cpuTime - cpuTimeAtSetpoint st in
  let sSinceStartOfYear0 := timeToSetpoint st + deltaTime in
  let '(sSinceStartOfYear, y, _) :=
    yearLoop (yearLoop_fuel sSinceStartOfYear0) sSinceStartOfYear0
             (startYear st) (isLeapYear (startYear st)) in
  let daysFromStartOfYear := Math_idiv sSinceStartOfYear (24 * 60 * 60) + 1 in
  let secondsSinceStartOfDay := js_rem sSinceStartOfYear (24 * 60 * 60) in
  let hoursFromStartOfDay := Math_idiv secondsSinceStartOfDay (60 * 60) in
  let secondsSinceStartOfHour := js_rem secondsSinceStartOfDay (60 * 60) in
  let minutesFromStartOfHour := Math_idiv secondsSinceStartOfHour 60 in
  let secondsSinceStartOfMinute := js_rem secondsSinceStartOfHour 60 in
  let ddmm := dayOfYearToMonthAndDay daysFromStartOfYear y in
  mkDateTime (month ddmm) (day ddmm) y hoursFromStartOfDay
             minutesFromStartOfHour secondsSinceStartOfMinute
             daysFromStartOfYear.

(** ** Formatting *)

Fixpoint leftZeroPadTo_loop (fuel : nat) (value : string) (digits : Z) : string :=
  match fuel with
  | O => value
  | S fuel' =>
      if Z.of_nat (String.length value) <? digits
      then leftZeroPadTo_loop fuel' ("0" ++ value)%string digits
      else value
  end.

Definition leftZeroPadTo (inp digits : Z) : string :=
  leftZeroPadTo_loop (Z.to_nat digits) (numberToString inp) digits.

Definition dayOfWeek (m d y : Z) : Z :=
  let D := js_rem y 100 in
  let C := Math_idiv y 100 in
  d + Math_idiv (13 * m - 1) 5 + D + Math_idiv D 4 + Math_idiv C 4 - 2 * C.

Definition fullTime (t : DateTime) : string :=
  (leftZeroPadTo (hour t) 2 ++ ":" ++ leftZeroPadTo (minute t) 2 ++ "."
   ++ leftZeroPadTo (second t) 2)%string.

Definition fullYear (t : DateTime) : string :=
  (leftZeroPadTo (year t) 4 ++ "-" ++ leftZeroPadTo (month t) 2 ++ "-"
   ++ leftZeroPadTo (day t) 2)%string.

(** ** The device and the monad of the exported operations *)

(** What the exported functions read and write: the state variables, the
    reading of [input.runningTime()] (milliseconds) and the lines written
    to the serial port, latest first. *)
Record Device := mkDevice {
  clock : ClockState;
  runningTime : Z;
  serial : list string
}.

(** A computation on the device.  [None]: a state variable would become
    [NaN] (a read of [cdoy] outside its bounds); the model stops there. *)
Definition M (A : Type) : Type := Device -> option (A * Device).

Definition ret {A} (a : A) : M A := fun w => Some (a, w).

Definition bind {A B} (c : M A) (k : A -> M B) : M B :=
  fun w => match c w with
           | None => None
           | Some (a, w') => k a w'
           end.

Notation "x <- c ;; k" := (bind c (fun x => k))
  (at level 61, c at next level, right associativity).
Notation "c ;;; k" := (bind c (fun _ => k))
  (at level 61, right associativity).

Definition getClock : M ClockState := fun w => Some (clock w, w).

Definition putClock (st : ClockState) : M unit :=
  fun w => Some (tt, mkDevice st (runningTime w) (serial w)).

Definition number_or_NaN (v : option Z) : M Z :=
  fun w => match v with
           | Some z => Some (z, w)
           | None => None
           end.

Definition set_startYear (v : Z) : M unit :=
  st <- getClock ;;
  putClock (mkClockState v (timeToSetpoint st) (cpuTimeAtSetpoint st)).

Definition set_timeToSetpoint (v : Z) : M unit :=
  st <- getClock ;;
  putClock (mkClockState (startYear st) v (cpuTimeAtSetpoint st)).

Definition set_cpuTimeAtSetpoint (v : Z) : M unit :=
  st <- getClock ;;
  putClock (mkClockState (startYear st) (timeToSetpoint st) v).

Definition serial_writeLine (s : string) : M unit :=
  fun w => Some (tt, mkDevice (clock w) (runningTime w) (s :: serial w)).

Definition input_runningTime : M Z := fun w => Some (runningTime w, w).

Definition timeInSeconds : M Z :=
  ms <- input_runningTime ;;
  ret (Math_idiv ms 1000).

(** [timeFor] as called by the exported functions, on the current state. *)
Definition timeForNow (cpuTime : Z) : M DateTime :=
  st <- getClock ;;
  ret (timeFor st cpuTime).

(** ** Exported blocks *)

Definition set24HourTime (hour minute second : Z) : M unit :=
  cpuTime <- timeInSeconds ;;
  t <- timeForNow cpuTime ;;
  set_cpuTimeAtSetpoint cpuTime ;;;
  v <- number_or_NaN
         (secondsSoFarForYear (month t) (day t) (year t) hour minute second) ;;
  set_timeToSetpoint v.

Definition setDate (month day year : Z) : M unit :=
  cpuTime <- timeInSeconds ;;
  t <- timeForNow cpuTime ;;
  set_startYear year ;;;
  set_cpuTimeAtSetpoint cpuTime ;;;
  st <- getClock ;;
  v <- number_or_NaN
         (secondsSoFarForYear month day (startYear st)
                              (hour t) (minute t) (second t)) ;;
  set_timeToSetpoint v.

Definition setTime (hour minute second : Z) (ampm : MornNight) : M unit :=
  let hour :=
    if (match ampm with AM => true | PM => false end) && (hour =? 12) then 0
    else if hour <? 12 then hour + 12
    else hour in
  set24HourTime hour minute second.

Definition advanceBy (amount : Z) (unit : TimeUnit) : M Datatypes.unit :=
  let units := [0; 1; 60 * 1; 60 * 60 * 1; 24 * 60 * 60 * 1] in
  serial_writeLine (numberToString (TimeUnit_value unit)) ;;;
  k <- number_or_NaN (arr_at units (TimeUnit_value unit)) ;;
  st <- getClock ;;
  set_cpuTimeAtSetpoint (cpuTimeAtSetpoint st - amount * k).

Definition numericTime
  (handler : Z -> Z -> Z -> Z -> Z -> Z -> Z -> Z -> M unit) : M unit :=
  cpuTime <- timeInSeconds ;;
  t <- timeForNow cpuTime ;;
  handler (hour t) (minute t) (second t)
          (dayOfWeek (month t) (day t) (year t))
          (day t) (month t) (year t) (dayOfYear t).

Definition time (format : TimeFormat) : M string :=
  cpuTime <- timeInSeconds ;;
  t <- timeForNow cpuTime ;;
  match format with
  | HHMM24hr => ret (fullTime t)
  | AMPM =>
      let hour0 := hour t in
      let ap := if hour t <? 12 then "am"%string else "pm"%string in
      let hour1 :=
        if hour t =? 0 then 12
        else if hour0 >? 12 then hour t - 12
        else hour0 in
      ret (numberToString hour1 ++ ":" ++ leftZeroPadTo (minute t) 2 ++ "."
           ++ leftZeroPadTo (second t) 2 ++ ap)%string
  end.

Definition date (format : DateFormat) : M string :=
  cpuTime <- timeInSeconds ;;
  t <- timeForNow cpuTime ;;
  match format with
  | MD => ret (numberToString (month t) ++ "/" ++ numberToString (day t))%string
  | MDYYYY =>
      ret (numberToString (month t) ++ "/" ++ numberToString (day t) ++ "/"
           ++ numberToString (year t))%string
  | YYYY_MM_DD => ret (fullYear t)
  end.

Definition dateTime : M string :=
  cpuTime <- timeInSeconds ;;
  t <- timeForNow cpuTime ;;
  ret (fullYear t ++ " " ++ fullTime t)%string.

Definition onMinuteChanged (handler : M unit) : M unit := ret tt.

Definition onHourChanged (handler : M unit) : M unit := ret tt.

Definition onDayChanged (handler : M unit) : M unit := ret tt.

End timeAndDate.

Import timeAndDate.

(** ** Notions used to state the properties *)

(** Days of month [m] in year [y], by the calendar. *)
Definition daysInMonth (m y : Z) : Z :=
  match m with
  | 1 | 3 | 5 | 7 | 8 | 10 | 12 => 31
  | 4 | 6 | 9 | 11 => 30
  | 2 => if isLeapYear y then 29 else 28
  | _ => 0
  end.

(** Days of a year. *)
Definition daysInYear (y : Z) : Z := if isLeapYear y then 366 else 365.

(** Seconds of a year. *)
Definition secondsInYear (leap : bool) : Z :=
  if leap then 366 * 24 * 60 * 60 else 365 * 24 * 60 * 60.

(** The [while] loop of [timeFor] read as a relation: started with
    [sSinceStartOfYear = s] in year [y], it ends with [s'] in year [y']. *)
Inductive rollsTo : Z -> Z -> Z -> Z -> Prop :=
| rolls_exit (s y : Z) :
    yearLoop_cond s (isLeapYear y) = false -> rollsTo s y s y
| rolls_iter (s y s' y' : Z) :
    yearLoop_cond s (isLeapYear y) = true ->
    rollsTo (s - secondsInYear (isLeapYear y)) (y + 1) s' y' ->
    rollsTo s y s' y'.

(** What [timeFor] builds after its loop, from the seconds [s] since the
    start of year [y]. *)
Definition instantAt (s y : Z) : DateTime :=
  let daysFromStartOfYear := Math_idiv s (24 * 60 * 60) + 1 in
  let secondsSinceStartOfDay := js_rem s (24 * 60 * 60) in
  let secondsSinceStartOfHour := js_rem secondsSinceStartOfDay (60 * 60) in
  let ddmm := dayOfYearToMonthAndDay daysFromStartOfYear y in
  mkDateTime (month ddmm) (day ddmm) y
             (Math_idiv secondsSinceStartOfDay (60 * 60))
             (Math_idiv secondsSinceStartOfHour 60)
             (js_rem secondsSinceStartOfHour 60)
             daysFromStartOfYear.

(** The reading of the clock in seconds, as the exported functions take it. *)
Definition readingOf (w : Device) : Z := Math_idiv (runningTime w) 1000.

(** The year-rollover property as first stated: from an instant in a year
    that is not a leap year, 365 days more on the reading give the same
    month, day, hour, minute and second one year later. *)
Definition same_date_next_year (st : ClockState) (e : Z) : Prop :=
  let t := timeFor st e in
  let t' := timeFor st (e + 365 * 86400) in
  isLeapYear (year t) = false ->
  month t' = month t /\ day t' = day t /\ hour t' = hour t /\
  minute t' = minute t /\ second t' = second t /\ year t' = year t + 1.

(** Seconds of the [n] years from year [y] on. *)
Fixpoint yearsSeconds (y : Z) (n : nat) : Z :=
  match n with
  | O => 0
  | S n' => secondsInYear (isLeapYear y) + yearsSeconds (y + 1) n'
  end.

(** [k] characters ["0"]. *)
Fixpoint zeros (k : nat) : string :=
  match k with
  | O => EmptyString
  | S k' => ("0" ++ zeros k')%string
  end.

(** A date of the calendar. *)
Definition validDate (m d y : Z) : Prop :=
  1 <= m <= 12 /\ 1 <= d <= daysInMonth m y.

(** A time of day. *)
Definition validTime (hh mm ss : Z) : Prop :=
  0 <= hh <= 23 /\ 0 <= mm <= 59 /\ 0 <= ss <= 59.

(** Seconds since the start of [startYear] at the reading [e]: the value
    [timeFor] starts its loop with. *)
Definition secondsAt (st : ClockState) (e : Z) : Z :=
  timeToSetpoint st + (e - cpuTimeAtSetpoint st).

(** ** Tactics *)

(** Case analysis on the comparisons of the goal. *)
Ltac split_cmp :=
  rewrite ?Z.gtb_ltb;
  repeat match goal with
         | |- context [?a =? ?b] => destruct (Z.eqb_spec a b)
         end;
  repeat match goal with
         | |- context [?a <? ?b] => destruct (Z.ltb_spec a b)
         end;
  repeat match goal with
         | |- context [?a <=? ?b] => destruct (Z.leb_spec a b)
         end.

(** Evaluates the reads of [cdoy] at constant indices. *)
Ltac eval_cdoy :=
  repeat match goal with
         | |- context [arr_at cdoy ?m] =>
             let v := eval vm_compute in (arr_at cdoy m) in
             change (arr_at cdoy m) with v
         end.

(** Case analysis on a month 1..12. *)
Ltac month_cases m :=
  let Hc := fresh "Hc" in
  assert (Hc : m = 1 \/ m = 2 \/ m = 3 \/ m = 4 \/ m = 5 \/ m = 6 \/ m = 7 \/
               m = 8 \/ m = 9 \/ m = 10 \/ m = 11 \/ m = 12) by lia;
  repeat (destruct Hc as [-> | Hc]); try subst m.

(** Unfolds the monad of the exported operations. *)
Ltac run_M :=
  cbv [bind ret getClock putClock number_or_NaN set_startYear
       set_timeToSetpoint set_cpuTimeAtSetpoint serial_writeLine
       input_runningTime timeInSeconds timeForNow].

(** ** The host primitives on small numbers *)

Lemma toInt32_small (x : Z) : - 2 ^ 31 <= x < 2 ^ 31 -> toInt32 x = x.
Proof.
  intros Hx. unfold toInt32.
  rewrite Z.mod_small by lia. lia.
Qed.

Lemma Math_idiv_small (x y : Z) :
  0 <= x < 2 ^ 31 -> 0 < y < 2 ^ 31 -> Math_idiv x y = x / y.
Proof.
  intros Hx Hy. unfold Math_idiv.
  rewrite (toInt32_small x), (toInt32_small y) by lia.
  rewrite Z.quot_div_nonneg by lia.
  apply toInt32_small.
  assert (0 <= x / y) by (apply Z.div_pos; lia).
  assert (x / y <= x) by (apply Z.div_le_upper_bound; nia).
  lia.
Qed.

Lemma js_rem_nonneg (x y : Z) : 0 <= x -> 0 < y -> js_rem x y = x mod y.
Proof. intros Hx Hy. unfold js_rem. apply Z.rem_mod_nonneg; lia. Qed.

(** ** The table and the month loop *)

Lemma arr_at_Some (a : list Z) (i : Z) :
  (exists c, arr_at a i = Some c) <-> 0 <= i < Z.of_nat (List.length a).
Proof.
  unfold arr_at. destruct (Z.ltb_spec i 0) as [Hi | Hi].
  - split; [intros [c Hc]; discriminate | lia].
  - split.
    + intros [c Hc].
      assert (Hn : nth_error a (Z.to_nat i) <> None) by congruence.
      apply nth_error_Some in Hn. lia.
    + intros Hr.
      destruct (nth_error a (Z.to_nat i)) as [c |] eqn:E; [eauto |].
      apply nth_error_None in E. lia.
Qed.

(** The month loop over [cdoy], unrolled. *)
Lemma monthLoop_cdoy (d : Z) :
  monthLoop (List.length cdoy) 1 d =
  if d <=? 31 then mkDateTime 1 (d - 0) 0 0 0 0 0
  else if d <=? 59 then mkDateTime 2 (d - 31) 0 0 0 0 0
  else if d <=? 90 then mkDateTime 3 (d - 59) 0 0 0 0 0
  else if d <=? 120 then mkDateTime 4 (d - 90) 0 0 0 0 0
  else if d <=? 151 then mkDateTime 5 (d - 120) 0 0 0 0 0
  else if d <=? 181 then mkDateTime 6 (d - 151) 0 0 0 0 0
  else if d <=? 212 then mkDateTime 7 (d - 181) 0 0 0 0 0
  else if d <=? 243 then mkDateTime 8 (d - 212) 0 0 0 0 0
  else if d <=? 273 then mkDateTime 9 (d - 243) 0 0 0 0 0
  else if d <=? 304 then mkDateTime 10 (d - 273) 0 0 0 0 0
  else if d <=? 334 then mkDateTime 11 (d - 304) 0 0 0 0 0
  else if d <=? 365 then mkDateTime 12 (d - 334) 0 0 0 0 0
  else mkDateTime (-1) (-1) 0 0 0 0 0.
Proof. reflexivity. Qed.

(** What [dayOfYearToMonthAndDay] returns, by the day of the year with the
    leap day taken out. *)
Lemma dayOfYearToMonthAndDay_eq (d y : Z) :
  dayOfYearToMonthAndDay d y =
  if isLeapYear y && (d =? 60) then mkDateTime 2 29 0 0 0 0 0
  else monthLoop (List.length cdoy) 1
         (if isLeapYear y && (d >? 60) then d - 1 else d).
Proof. reflexivity. Qed.

Lemma dayOfYearToMonthAndDay_sentinel (d y : Z) :
  (month (dayOfYearToMonthAndDay d y) = -1 /\
   day (dayOfYearToMonthAndDay d y) = -1) <-> daysInYear y < d.
Proof.
  rewrite dayOfYearToMonthAndDay_eq, monthLoop_cdoy. unfold daysInYear.
  destruct (isLeapYear y); cbn [andb];
    split_cmp; cbn [month day]; lia.
Qed.

Lemma dayOfYearToMonthAndDay_valid (d y : Z) :
  1 <= d <= daysInYear y ->
  1 <= month (dayOfYearToMonthAndDay d y) <= 12 /\
  1 <= day (dayOfYearToMonthAndDay d y)
    <= daysInMonth (month (dayOfYearToMonthAndDay d y)) y.
Proof.
  rewrite dayOfYearToMonthAndDay_eq, monthLoop_cdoy. unfold daysInYear.
  destruct (isLeapYear y) eqn:L; cbn [andb]; intros Hd;
    split_cmp; cbn [month day daysInMonth]; rewrite ?L; lia.
Qed.

(** ** The year loop *)

Lemma yearLoop_cond_true (s : Z) (leap : bool) :
  yearLoop_cond s leap = true <-> secondsInYear leap < s.
Proof.
  unfold yearLoop_cond, secondsInYear.
  destruct leap; cbn [negb andb orb]; split_cmp; split; (lia || congruence).
Qed.

Lemma yearLoop_cond_false (s : Z) (leap : bool) :
  yearLoop_cond s leap = false <-> s <= secondsInYear leap.
Proof.
  pose proof (yearLoop_cond_true s leap) as H.
  destruct (yearLoop_cond s leap).
  - split; [discriminate |]. intros Hle.
    assert (secondsInYear leap < s) by now apply H. lia.
  - split; [| reflexivity]. intros _.
    destruct (Z.le_gt_cases s (secondsInYear leap)) as [Hle | Hgt]; [assumption |].
    apply H in Hgt. discriminate.
Qed.

Lemma secondsInYear_bounds (leap : bool) :
  365 * 24 * 60 * 60 <= secondsInYear leap <= 366 * 24 * 60 * 60.
Proof. destruct leap; cbn; lia. Qed.

(** One unfolding of the loop, with the two subtractions merged. *)
Lemma yearLoop_S (n : nat) (s y : Z) :
  yearLoop (S n) s y (isLeapYear y) =
  if yearLoop_cond s (isLeapYear y)
  then yearLoop n (s - secondsInYear (isLeapYear y)) (y + 1) (isLeapYear (y + 1))
  else (s, y, isLeapYear y).
Proof. cbn [yearLoop]. unfold secondsInYear. destruct (isLeapYear y); reflexivity. Qed.

(** With fuel for every whole 365 days of [s], the loop runs to its exit. *)
Lemma yearLoop_rollsTo (n : nat) : forall s y,
  s < (Z.of_nat n + 1) * (365 * 24 * 60 * 60) ->
  exists s' y',
    yearLoop n s y (isLeapYear y) = (s', y', isLeapYear y') /\ rollsTo s y s' y'.
Proof.
  induction n as [| n IH]; intros s y Hs.
  - exists s, y. split; [reflexivity |].
    apply rolls_exit, yearLoop_cond_false.
    pose proof (secondsInYear_bounds (isLeapYear y)). lia.
  - rewrite yearLoop_S.
    destruct (yearLoop_cond s (isLeapYear y)) eqn:C.
    + destruct (IH (s - secondsInYear (isLeapYear y)) (y + 1)) as (s' & y' & E & R).
      { pose proof (secondsInYear_bounds (isLeapYear y)). lia. }
      exists s', y'. split; [exact E |]. now apply rolls_iter.
    + exists s, y. split; [reflexivity |]. now apply rolls_exit.
Qed.

Lemma yearLoop_fuel_enough (s : Z) :
  s < (Z.of_nat (yearLoop_fuel s) + 1) * (365 * 24 * 60 * 60).
Proof.
  unfold yearLoop_fuel.
  set (L := 365 * 24 * 60 * 60).
  assert (HL : 0 < L) by (subst L; lia).
  destruct (Z.le_gt_cases 0 s) as [Hs | Hs].
  - assert (0 <= s / L) by (apply Z.div_pos; lia).
    rewrite Z2Nat.id by assumption.
    pose proof (Z.mul_succ_div_gt s L HL). lia.
  - assert (0 <= Z.of_nat (Z.to_nat (s / L))) by lia. nia.
Qed.

(** The loop of [timeFor] always ends, at the pair [rollsTo] describes. *)
Lemma yearLoop_exits (s y : Z) :
  exists s' y',
    yearLoop (yearLoop_fuel s) s y (isLeapYear y) = (s', y', isLeapYear y')
    /\ rollsTo s y s' y'.
Proof. apply yearLoop_rollsTo, yearLoop_fuel_enough. Qed.

Lemma rollsTo_det (s y s1 y1 : Z) :
  rollsTo s y s1 y1 -> forall s2 y2, rollsTo s y s2 y2 -> s1 = s2 /\ y1 = y2.
Proof.
  induction 1 as [s y C | s y s1 y1 C R IH]; intros s2 y2 R2; inversion R2; subst.
  - auto.
  - congruence.
  - congruence.
  - auto.
Qed.

Lemma rollsTo_exit_cond (s y s' y' : Z) :
  rollsTo s y s' y' -> s' <= secondsInYear (isLeapYear y').
Proof.
  induction 1 as [s y C | s y s1 y1 C R IH]; [| exact IH].
  now apply yearLoop_cond_false.
Qed.

Lemma rollsTo_pos (s y s' y' : Z) : rollsTo s y s' y' -> 0 < s -> 0 < s'.
Proof.
  induction 1 as [s y C | s y s1 y1 C R IH]; intros Hs; [exact Hs |].
  apply IH. apply yearLoop_cond_true in C. lia.
Qed.

Lemma rollsTo_nonneg (s y s' y' : Z) : rollsTo s y s' y' -> 0 <= s -> 0 <= s'.
Proof.
  induction 1 as [s y C | s y s1 y1 C R IH]; intros Hs; [exact Hs |].
  apply IH. apply yearLoop_cond_true in C. lia.
Qed.

(** Adding seconds before the loop is adding them after it and going on. *)
Lemma rollsTo_shift (s y s1 y1 : Z) :
  rollsTo s y s1 y1 ->
  forall k s2 y2, 0 <= k -> rollsTo (s1 + k) y1 s2 y2 -> rollsTo (s + k) y s2 y2.
Proof.
  induction 1 as [s y C | s y s1 y1 C R IH]; intros k s2 y2 Hk R2; [exact R2 |].
  apply rolls_iter.
  - apply yearLoop_cond_true. apply yearLoop_cond_true in C. lia.
  - replace (s + k - secondsInYear (isLeapYear y))
      with (s - secondsInYear (isLeapYear y) + k) by lia.
    now apply IH.
Qed.

(** [timeFor] is the loop followed by the decomposition of what is left. *)
Lemma timeFor_rollsTo (st : ClockState) (cpuTime s y : Z) :
  rollsTo (timeToSetpoint st + (cpuTime - cpuTimeAtSetpoint st)) (startYear st) s y ->
  timeFor st cpuTime = instantAt s y.
Proof.
  intros R. unfold timeFor.
  destruct (yearLoop_exits (timeToSetpoint st + (cpuTime - cpuTimeAtSetpoint st))
                           (startYear st)) as (s' & y' & E & R').
  rewrite E.
  destruct (rollsTo_det _ _ _ _ R' _ _ R) as [-> ->]. reflexivity.
Qed.

Lemma timeFor_instantAt (st : ClockState) (cpuTime : Z) :
  exists s y,
    rollsTo (timeToSetpoint st + (cpuTime - cpuTimeAtSetpoint st)) (startYear st) s y
    /\ timeFor st cpuTime = instantAt s y.
Proof.
  destruct (yearLoop_exits (timeToSetpoint st + (cpuTime - cpuTimeAtSetpoint st))
                           (startYear st)) as (s' & y' & E & R').
  exists s', y'. split; [exact R' |]. now apply timeFor_rollsTo.
Qed.

(** ** Calendar round trip *)

Lemma roundtrip_month_day (m d y : Z) :
  1 <= m <= 12 -> 1 <= d <= daysInMonth m y ->
  exists doy,
    dateToDayOfYear m d y = Some doy /\
    month (dayOfYearToMonthAndDay doy y) = m /\
    day (dayOfYearToMonthAndDay doy y) = d.
Proof.
  intros Hm Hd.
  assert (Hc : m = 1 \/ m = 2 \/ m = 3 \/ m = 4 \/ m = 5 \/ m = 6 \/ m = 7 \/
               m = 8 \/ m = 9 \/ m = 10 \/ m = 11 \/ m = 12) by lia.
  unfold dateToDayOfYear.
  repeat (destruct Hc as [-> | Hc]); try subst m.
  all: eval_cdoy; cbv beta iota zeta.
  all: eexists; split; [reflexivity |].
  all: rewrite dayOfYearToMonthAndDay_eq, monthLoop_cdoy.
  all: cbn [daysInMonth Z.gtb Z.compare Pos.compare Pos.compare_cont andb] in *.
  all: destruct (isLeapYear y); cbn [andb].
  all: split_cmp; cbn [month day]; lia.
Qed.

(** C5. For every valid date [(m, d, y)], with [1 <= m <= 12] and
    [1 <= d <= daysInMonth m y], [dateToDayOfYear] yields a day of the year
    that [dayOfYearToMonthAndDay] maps back to month [m] and day [d]; and
    [dateToDayOfYear(2,29,2024) = 60], [dayOfYearToMonthAndDay(60,2024)] is
    February 29, [dayOfYearToMonthAndDay(61,2024)] is March 1. *)
Theorem dayOfYear_roundtrip :
  (forall m d y : Z,
      1 <= m <= 12 -> 1 <= d <= daysInMonth m y ->
      exists doy,
        dateToDayOfYear m d y = Some doy /\
        month (dayOfYearToMonthAndDay doy y) = m /\
        day (dayOfYearToMonthAndDay doy y) = d) /\
  dateToDayOfYear 2 29 2024 = Some 60 /\
  (month (dayOfYearToMonthAndDay 60 2024) = 2 /\
   day (dayOfYearToMonthAndDay 60 2024) = 29) /\
  (month (dayOfYearToMonthAndDay 61 2024) = 3 /\
   day (dayOfYearToMonthAndDay 61 2024) = 1).
Proof.
  split; [exact roundtrip_month_day |].
  repeat split; reflexivity.
Qed.

Lemma dayOfYear_roundtrip_witness :
  exists doy,
    dateToDayOfYear 12 31 2023 = Some doy /\
    month (dayOfYearToMonthAndDay doy 2023) = 12 /\
    day (dayOfYearToMonthAndDay doy 2023) = 31.
Proof.
  apply (proj1 dayOfYear_roundtrip 12 31 2023);
    [lia | change (daysInMonth 12 2023) with 31; lia].
Defined.

(** C8. [dayOfYearToMonthAndDay d y] returns the sentinel (month and day
    both -1) exactly when [d] is beyond the last day of year [y] (365, or
    366 in a leap year); for a day of the year in range it returns a month
    in 1..12 and a day of that month, never the sentinel. *)
Theorem dayOfYearToMonthAndDay_sentinel_iff (d y : Z) :
  ((month (dayOfYearToMonthAndDay d y) = -1 /\
    day (dayOfYearToMonthAndDay d y) = -1)
   <-> (if isLeapYear y then 366 else 365) < d) /\
  (1 <= d <= (if isLeapYear y then 366 else 365) ->
   1 <= month (dayOfYearToMonthAndDay d y) <= 12 /\
   1 <= day (dayOfYearToMonthAndDay d y)
     <= daysInMonth (month (dayOfYearToMonthAndDay d y)) y /\
   ~ (month (dayOfYearToMonthAndDay d y) = -1 /\
      day (dayOfYearToMonthAndDay d y) = -1)).
Proof.
  split.
  - apply dayOfYearToMonthAndDay_sentinel.
  - intros Hd.
    destruct (dayOfYearToMonthAndDay_valid d y Hd) as [Hm Hday].
    repeat split; try lia.
Qed.

Lemma dayOfYearToMonthAndDay_sentinel_iff_witness :
  1 <= month (dayOfYearToMonthAndDay 366 2024) <= 12 /\
  1 <= day (dayOfYearToMonthAndDay 366 2024)
    <= daysInMonth (month (dayOfYearToMonthAndDay 366 2024)) 2024 /\
  ~ (month (dayOfYearToMonthAndDay 366 2024) = -1 /\
     day (dayOfYearToMonthAndDay 366 2024) = -1).
Proof.
  apply (proj2 (dayOfYearToMonthAndDay_sentinel_iff 366 2024)).
  change (isLeapYear 2024) with true. lia.
Defined.

(** ** The exported operations *)

(** What [advanceBy] does to the device, for every amount and unit. *)
Lemma advanceBy_eq (amount : Z) (unit : TimeUnit) (w : Device) :
  advanceBy amount unit w =
  Some (tt,
        mkDevice
          (mkClockState
             (startYear (clock w)) (timeToSetpoint (clock w))
             (cpuTimeAtSetpoint (clock w)
              - amount * match unit with
                         | Milliseconds => 0
                         | Seconds => 1
                         | Minutes => 60
                         | Hours => 3600
                         | Days => 86400
                         end))
          (runningTime w)
          (numberToString (TimeUnit_value unit) :: serial w)).
Proof. destruct unit; reflexivity. Qed.

(** C6. For every amount and every unit among Seconds, Minutes, Hours and
    Days, [advanceBy amount unit] lowers [cpuTimeAtSetpoint] by exactly
    [amount * k] seconds, with [k] = 1, 60, 3600, 86400, and leaves
    [startYear] and [timeToSetpoint] as they were; the result is not
    clamped. *)
Theorem advanceBy_lowers_setpoint
  (amount : Z) (unit : TimeUnit) (k : Z) (w : Device) :
  In (unit, k) [(Seconds, 1); (Minutes, 60); (Hours, 3600); (Days, 86400)] ->
  exists w',
    advanceBy amount unit w = Some (tt, w') /\
    cpuTimeAtSetpoint (clock w') = cpuTimeAtSetpoint (clock w) - amount * k /\
    startYear (clock w') = startYear (clock w) /\
    timeToSetpoint (clock w') = timeToSetpoint (clock w).
Proof.
  intros Hin. rewrite advanceBy_eq. eexists. split; [reflexivity |].
  cbn [clock startYear timeToSetpoint cpuTimeAtSetpoint].
  cbn [In] in Hin.
  repeat (destruct Hin as [Hin | Hin]; [injection Hin as <- <-; auto |]).
  contradiction.
Qed.

Lemma advanceBy_lowers_setpoint_witness :
  exists w',
    advanceBy (-3) Days (mkDevice (mkClockState 2024 100 7) 9000 []) = Some (tt, w') /\
    cpuTimeAtSetpoint (clock w') = 7 - (-3) * 86400 /\
    startYear (clock w') = 2024 /\
    timeToSetpoint (clock w') = 100.
Proof.
  apply (advanceBy_lowers_setpoint
           (-3) Days 86400 (mkDevice (mkClockState 2024 100 7) 9000 [])).
  cbn [In]. auto.
Defined.

(** C10. [advanceBy amount Milliseconds] leaves the clock state as it was,
    whatever the amount: the entry of the unit table is 0.  The three
    state variables are the same after the call, and so is every instant
    and every string the queries return afterwards. *)
Theorem advanceBy_Milliseconds_noop (amount : Z) (w : Device) :
  exists w',
    advanceBy amount Milliseconds w = Some (tt, w') /\
    clock w' = clock w /\
    (forall cpuTime, timeFor (clock w') cpuTime = timeFor (clock w) cpuTime) /\
    (forall format, option_map fst (time format w') = option_map fst (time format w)) /\
    (forall format, option_map fst (date format w') = option_map fst (date format w)) /\
    option_map fst (dateTime w') = option_map fst (dateTime w).
Proof.
  rewrite advanceBy_eq. eexists. split; [reflexivity |].
  assert (E : mkClockState (startYear (clock w)) (timeToSetpoint (clock w))
                (cpuTimeAtSetpoint (clock w) - amount * 0) = clock w).
  { rewrite Z.mul_0_r, Z.sub_0_r. destruct (clock w); reflexivity. }
  rewrite E. cbn [clock].
  split; [reflexivity |]. split; [reflexivity |].
  destruct w as [st rt out]. cbn [clock runningTime serial].
  repeat split; try (intros []); reflexivity.
Qed.

(** The queries return on every device and hand the device back as it was. *)
Lemma time_pure (format : TimeFormat) (w : Device) :
  exists s, time format w = Some (s, w).
Proof. unfold time. destruct format; run_M; eexists; reflexivity. Qed.

Lemma date_pure (format : DateFormat) (w : Device) :
  exists s, date format w = Some (s, w).
Proof. unfold date. destruct format; run_M; eexists; reflexivity. Qed.

Lemma dateTime_pure (w : Device) : exists s, dateTime w = Some (s, w).
Proof. unfold dateTime. run_M. eexists; reflexivity. Qed.

Lemma numericTime_eq
  (handler : Z -> Z -> Z -> Z -> Z -> Z -> Z -> Z -> M unit) (w : Device) :
  numericTime handler w =
  let t := timeFor (clock w) (readingOf w) in
  handler (hour t) (minute t) (second t)
          (dayOfWeek (month t) (day t) (year t))
          (day t) (month t) (year t) (dayOfYear t) w.
Proof. reflexivity. Qed.

(** C9. The queries [time], [date], [dateTime] and [numericTime] write
    none of [startYear], [timeToSetpoint], [cpuTimeAtSetpoint]: the first
    three return with the device unchanged, [numericTime] does nothing but
    run its handler on the unchanged device, so the clock state after it is
    the one before it whenever the handler leaves the clock state alone.
    Nor do the three event registrations write the state: only
    [set24HourTime], [setTime], [setDate] and [advanceBy] do. *)
Theorem queries_keep_clock (w : Device) :
  (forall format, exists s, time format w = Some (s, w)) /\
  (forall format, exists s, date format w = Some (s, w)) /\
  (exists s, dateTime w = Some (s, w)) /\
  (forall handler,
      (forall a b c d e f g h w1 w2,
          handler a b c d e f g h w1 = Some (tt, w2) -> clock w2 = clock w1) ->
      forall w', numericTime handler w = Some (tt, w') -> clock w' = clock w) /\
  (forall handler,
      (forall a b c d e f g h w1, exists w2,
          handler a b c d e f g h w1 = Some (tt, w2)) ->
      exists w', numericTime handler w = Some (tt, w')) /\
  (forall handler, onMinuteChanged handler w = Some (tt, w)) /\
  (forall handler, onHourChanged handler w = Some (tt, w)) /\
  (forall handler, onDayChanged handler w = Some (tt, w)).
Proof.
  split; [intros f; apply time_pure |].
  split; [intros f; apply date_pure |].
  split; [apply dateTime_pure |].
  split.
  { intros handler Hh w' E. rewrite numericTime_eq in E. cbv zeta in E.
    exact (Hh _ _ _ _ _ _ _ _ _ _ E). }
  split.
  { intros handler Hh. rewrite numericTime_eq. cbv zeta. apply Hh. }
  repeat split.
Qed.

Lemma queries_keep_clock_witness :
  exists w',
    numericTime (fun h _ _ _ _ _ _ _ => serial_writeLine (numberToString h))
                (mkDevice (mkClockState 2024 3600 0) 0 []) = Some (tt, w') /\
    clock w' = mkClockState 2024 3600 0.
Proof.
  destruct (queries_keep_clock (mkDevice (mkClockState 2024 3600 0) 0 []))
    as (_ & _ & _ & Hkeep & Hruns & _).
  destruct (Hruns (fun h _ _ _ _ _ _ _ => serial_writeLine (numberToString h)))
    as [w' E].
  { intros a b c d e f g h w1. eexists. reflexivity. }
  exists w'. split; [exact E |].
  apply (Hkeep (fun h _ _ _ _ _ _ _ => serial_writeLine (numberToString h)));
    [| exact E].
  intros a b c d e f g h w1 w2 E'. injection E' as <-. reflexivity.
Defined.

(** ** The instant after the loop *)

Lemma Math_idiv_quot (x y : Z) :
  - 2 ^ 31 <= x < 2 ^ 31 -> 0 < y < 2 ^ 31 -> Math_idiv x y = Z.quot x y.
Proof.
  intros Hx Hy. unfold Math_idiv.
  rewrite (toInt32_small x), (toInt32_small y) by lia.
  apply toInt32_small.
  Z.to_euclidean_division_equations. nia.
Qed.

Lemma instantAt_nonneg (s y : Z) :
  0 <= s < 2 ^ 31 ->
  instantAt s y =
  mkDateTime (month (dayOfYearToMonthAndDay (s / 86400 + 1) y))
             (day (dayOfYearToMonthAndDay (s / 86400 + 1) y))
             y
             (s mod 86400 / 3600)
             (s mod 86400 mod 3600 / 60)
             (s mod 86400 mod 3600 mod 60)
             (s / 86400 + 1).
Proof.
  intros Hs. unfold instantAt.
  change (24 * 60 * 60) with 86400. change (60 * 60) with 3600.
  pose proof (Z.mod_pos_bound s 86400 ltac:(lia)) as H1.
  pose proof (Z.mod_pos_bound (s mod 86400) 3600 ltac:(lia)) as H2.
  rewrite (js_rem_nonneg s 86400) by lia.
  rewrite (js_rem_nonneg (s mod 86400) 3600) by lia.
  rewrite (js_rem_nonneg (s mod 86400 mod 3600) 60) by lia.
  rewrite !Math_idiv_small by lia.
  reflexivity.
Qed.

(** A positive hour is read off a positive number of seconds. *)
Lemma instantAt_hour_pos (s y : Z) : 0 < hour (instantAt s y) -> 0 < s.
Proof.
  unfold instantAt. cbn [hour]. unfold js_rem.
  change (24 * 60 * 60) with 86400. change (60 * 60) with 3600.
  intros H.
  destruct (Z.lt_ge_cases 0 s) as [Hs | Hs]; [exact Hs | exfalso].
  assert (Hr : - 86400 < Z.rem s 86400 <= 0)
    by (Z.to_euclidean_division_equations; lia).
  rewrite Math_idiv_quot in H by lia.
  Z.to_euclidean_division_equations. lia.
Qed.

(** The last day of a leap year is its day 366. *)
Lemma dayOfYearToMonthAndDay_Dec31_leap (d y : Z) :
  isLeapYear y = true ->
  month (dayOfYearToMonthAndDay d y) = 12 ->
  day (dayOfYearToMonthAndDay d y) = 31 ->
  d = 366.
Proof.
  intros L. rewrite dayOfYearToMonthAndDay_eq, monthLoop_cdoy, L. cbn [andb].
  split_cmp; cbn [month day]; lia.
Qed.

(** The month and day of a day of the year depend on the year only through
    the leap-year test, and not at all up to day 59. *)
Lemma dayOfYearToMonthAndDay_same_leap (d y1 y2 : Z) :
  isLeapYear y1 = isLeapYear y2 ->
  dayOfYearToMonthAndDay d y1 = dayOfYearToMonthAndDay d y2.
Proof. intros E. rewrite !dayOfYearToMonthAndDay_eq, E. reflexivity. Qed.

Lemma dayOfYearToMonthAndDay_before_leap_day (d y1 y2 : Z) :
  d <= 59 -> dayOfYearToMonthAndDay d y1 = dayOfYearToMonthAndDay d y2.
Proof.
  intros Hd. rewrite !dayOfYearToMonthAndDay_eq.
  destruct (isLeapYear y1), (isLeapYear y2); cbn [andb];
    split_cmp; try lia; reflexivity.
Qed.

(** ** Crossing the end of a year *)

(** C4. Whenever [timeFor] returns 2024-12-31 23:59:30 at a reading [e],
    after [advanceBy(40, Seconds)] it returns 2025-01-01 00:00:10 at the
    same reading. *)
Theorem advanceBy_crosses_new_year (w : Device) (e : Z) :
  month (timeFor (clock w) e) = 12 ->
  day (timeFor (clock w) e) = 31 ->
  year (timeFor (clock w) e) = 2024 ->
  hour (timeFor (clock w) e) = 23 ->
  minute (timeFor (clock w) e) = 59 ->
  second (timeFor (clock w) e) = 30 ->
  exists w',
    advanceBy 40 Seconds w = Some (tt, w') /\
    timeFor (clock w') e = mkDateTime 1 1 2025 0 0 10 1.
Proof.
  intros Hmo Hd Hy Hh Hmi Hs.
  rewrite advanceBy_eq. eexists. split; [reflexivity |]. cbn [clock].
  destruct (timeFor_instantAt (clock w) e) as (s & y & R & E).
  rewrite E in *. clear E.
  assert (y = 2024) by exact Hy. subst y.
  assert (Hpos : 0 < s) by (apply (instantAt_hour_pos s 2024); lia).
  pose proof (rollsTo_exit_cond _ _ _ _ R) as Hle.
  change (secondsInYear (isLeapYear 2024)) with 31622400 in Hle.
  rewrite instantAt_nonneg in Hmo, Hd, Hh, Hmi, Hs by lia.
  cbn [month day hour minute second] in Hmo, Hd, Hh, Hmi, Hs.
  pose proof (dayOfYearToMonthAndDay_Dec31_leap _ 2024 eq_refl Hmo Hd) as Hdoy.
  assert (s = 31622370) by (Z.to_euclidean_division_equations; lia). subst s.
  rewrite (timeFor_rollsTo _ e 10 2025); [reflexivity |].
  cbn [startYear timeToSetpoint cpuTimeAtSetpoint].
  replace (timeToSetpoint (clock w) + (e - (cpuTimeAtSetpoint (clock w) - 40 * 1)))
    with (timeToSetpoint (clock w) + (e - cpuTimeAtSetpoint (clock w)) + 40) by lia.
  apply (rollsTo_shift _ _ _ _ R 40); [lia |].
  apply rolls_iter; [reflexivity |].
  apply rolls_exit. reflexivity.
Qed.

Lemma advanceBy_crosses_new_year_witness :
  exists w',
    advanceBy 40 Seconds (mkDevice (mkClockState 2024 31622370 0) 0 [])
    = Some (tt, w') /\
    timeFor (clock w') 0 = mkDateTime 1 1 2025 0 0 10 1.
Proof.
  apply (advanceBy_crosses_new_year
           (mkDevice (mkClockState 2024 31622370 0) 0 []) 0);
    vm_compute; reflexivity.
Defined.

(** C3, as stated, fails: 365 days after 2023-03-01 the clock shows
    2024-02-29, since 2024 has a leap day in between.  It also fails where
    the seconds since the start of [startYear] are not positive: from
    2023-01-01 00:00:00 exactly, and from a reading before the start of
    [startYear], the year is not incremented. *)
Lemma same_date_next_year_fails :
  ~ same_date_next_year (mkClockState 2023 (59 * 86400) 0) 0 /\
  ~ same_date_next_year (mkClockState 2023 0 0) 0 /\
  ~ same_date_next_year (mkClockState 2023 0 0) (-86400).
Proof.
  unfold same_date_next_year. vm_compute.
  repeat split; intros H; destruct (H eq_refl) as (Hm & _ & _ & _ & _ & Hy);
    (discriminate Hm || discriminate Hy).
Qed.

(** C3, amended. For every clock state and reading [e] with a positive
    number of seconds since the start of [startYear], whose instant lies in
    a year [y] that is not a leap year, 365 * 86400 seconds more on the
    reading give the year [y + 1] with the same day of the year, hour,
    minute and second; the month and the day are the same too when [y + 1]
    is not a leap year or the day of the year is at most 59. *)
Theorem year_rollover (st : ClockState) (e : Z) :
  0 < timeToSetpoint st + (e - cpuTimeAtSetpoint st) ->
  isLeapYear (year (timeFor st e)) = false ->
  let t := timeFor st e in
  let t' := timeFor st (e + 365 * 86400) in
  year t' = year t + 1 /\
  dayOfYear t' = dayOfYear t /\
  hour t' = hour t /\ minute t' = minute t /\ second t' = second t /\
  (isLeapYear (year t + 1) = false \/ dayOfYear t <= 59 ->
   month t' = month t /\ day t' = day t).
Proof.
  intros Hpos Hleap t t'. subst t t'.
  destruct (timeFor_instantAt st e) as (s & y & R & E).
  rewrite E in *. change (isLeapYear y = false) in Hleap.
  pose proof (rollsTo_pos _ _ _ _ R Hpos) as Hs.
  pose proof (rollsTo_exit_cond _ _ _ _ R) as Hle.
  rewrite Hleap in Hle. cbn [secondsInYear] in Hle.
  assert (R' : rollsTo (timeToSetpoint st + (e + 365 * 86400 - cpuTimeAtSetpoint st))
                       (startYear st) s (y + 1)).
  { replace (timeToSetpoint st + (e + 365 * 86400 - cpuTimeAtSetpoint st))
      with (timeToSetpoint st + (e - cpuTimeAtSetpoint st) + 365 * 86400) by lia.
    apply (rollsTo_shift _ _ _ _ R); [lia |].
    apply rolls_iter.
    - apply yearLoop_cond_true. rewrite Hleap. cbn [secondsInYear]. lia.
    - rewrite Hleap. cbn [secondsInYear].
      replace (s + 365 * 86400 - 365 * 24 * 60 * 60) with s by lia.
      apply rolls_exit, yearLoop_cond_false.
      pose proof (secondsInYear_bounds (isLeapYear (y + 1))). lia. }
  rewrite (timeFor_rollsTo _ _ _ _ R').
  unfold instantAt. cbn [year dayOfYear hour minute second month day].
  repeat (split; [reflexivity |]).
  intros [Hnext | Hdoy].
  - rewrite (dayOfYearToMonthAndDay_same_leap _ (y + 1) y) by congruence.
    split; reflexivity.
  - rewrite (dayOfYearToMonthAndDay_before_leap_day _ (y + 1) y Hdoy).
    split; reflexivity.
Qed.

Lemma year_rollover_witness :
  let t := timeFor (mkClockState 2023 (58 * 86400 + 3723) 5) 5 in
  let t' := timeFor (mkClockState 2023 (58 * 86400 + 3723) 5) (5 + 365 * 86400) in
  year t' = year t + 1 /\
  dayOfYear t' = dayOfYear t /\
  hour t' = hour t /\ minute t' = minute t /\ second t' = second t /\
  (isLeapYear (year t + 1) = false \/ dayOfYear t <= 59 ->
   month t' = month t /\ day t' = day t).
Proof.
  apply (year_rollover (mkClockState 2023 (58 * 86400 + 3723) 5) 5);
    vm_compute; reflexivity.
Defined.

(** ** Within a year: the resolver and [set24HourTime] *)

Lemma daysInMonth_le_31 (m y : Z) : daysInMonth m y <= 31.
Proof.
  unfold daysInMonth.
  destruct m as [| p | p]; try lia.
  do 4 (try destruct p as [p | p |]); try lia; destruct (isLeapYear y); lia.
Qed.

(** Hours, minutes and seconds packed into a day come out again. *)
Lemma pack_unpack (q hh mm ss : Z) :
  0 <= hh <= 23 -> 0 <= mm <= 59 -> 0 <= ss <= 59 ->
  let x := ((q * 24 + hh) * 60 + mm) * 60 + ss in
  x / 86400 = q /\ x mod 86400 / 3600 = hh /\
  x mod 86400 mod 3600 / 60 = mm /\ x mod 86400 mod 3600 mod 60 = ss.
Proof.
  intros Hh Hm Hs x.
  assert (E1 : x = q * 86400 + (hh * 3600 + mm * 60 + ss)) by (subst x; lia).
  assert (D : x / 86400 = q /\ x mod 86400 = hh * 3600 + mm * 60 + ss).
  { rewrite E1. split.
    - rewrite Z.add_comm, Z.div_add by lia. rewrite Z.div_small by lia. lia.
    - rewrite Z.add_comm, Z.mod_add by lia. apply Z.mod_small. lia. }
  destruct D as [D1 D2]. rewrite D1, D2.
  assert (D' : (hh * 3600 + mm * 60 + ss) / 3600 = hh /\
               (hh * 3600 + mm * 60 + ss) mod 3600 = mm * 60 + ss).
  { replace (hh * 3600 + mm * 60 + ss) with (mm * 60 + ss + hh * 3600) by lia.
    split.
    - rewrite Z.div_add by lia. rewrite Z.div_small by lia. lia.
    - rewrite Z.mod_add by lia. apply Z.mod_small. lia. }
  destruct D' as [D3 D4]. rewrite D3, D4.
  replace (mm * 60 + ss) with (ss + mm * 60) by lia.
  rewrite Z.div_add, Z.mod_add by lia.
  rewrite Z.div_small, Z.mod_small by lia. lia.
Qed.

(** [dateToDayOfYear] undoes [dayOfYearToMonthAndDay] on the days of a year. *)
Lemma dateToDayOfYear_inverse (d y : Z) :
  1 <= d <= daysInYear y ->
  dateToDayOfYear (month (dayOfYearToMonthAndDay d y))
                  (day (dayOfYearToMonthAndDay d y)) y = Some d.
Proof.
  unfold daysInYear. intros Hd.
  rewrite dayOfYearToMonthAndDay_eq, monthLoop_cdoy.
  destruct (isLeapYear y) eqn:L; cbn [andb];
    split_cmp; cbn [month day]; try lia;
    unfold dateToDayOfYear; eval_cdoy; cbv beta iota zeta;
    cbn [Z.gtb Z.compare Pos.compare Pos.compare_cont andb];
    rewrite ?L; f_equal; lia.
Qed.

(** Away from the last second of the loop's year, the instant is within the
    ranges documented for [DateTime]. *)
Lemma timeFor_in_range (st : ClockState) (e s y : Z) :
  0 <= timeToSetpoint st -> cpuTimeAtSetpoint st <= e ->
  rollsTo (timeToSetpoint st + (e - cpuTimeAtSetpoint st)) (startYear st) s y ->
  s <> secondsInYear (isLeapYear y) ->
  let t := timeFor st e in
  1 <= month t <= 12 /\ 1 <= day t <= 31 /\ 0 <= hour t <= 23 /\
  0 <= minute t <= 59 /\ 0 <= second t <= 59 /\ 1 <= dayOfYear t <= 366.
Proof.
  intros HT HC R Hne t. subst t.
  rewrite (timeFor_rollsTo _ _ _ _ R).
  pose proof (rollsTo_nonneg _ _ _ _ R ltac:(lia)) as H0.
  pose proof (rollsTo_exit_cond _ _ _ _ R) as Hle.
  assert (Hd : 1 <= s / 86400 + 1 <= daysInYear y).
  { unfold daysInYear. unfold secondsInYear in *.
    destruct (isLeapYear y); Z.to_euclidean_division_equations; lia. }
  assert (Hy : daysInYear y <= 366) by (unfold daysInYear; destruct (isLeapYear y); lia).
  rewrite instantAt_nonneg
    by (pose proof (secondsInYear_bounds (isLeapYear y)); lia).
  cbn [month day hour minute second dayOfYear].
  destruct (dayOfYearToMonthAndDay_valid _ y Hd) as [Hm Hday].
  pose proof (daysInMonth_le_31 (month (dayOfYearToMonthAndDay (s / 86400 + 1) y)) y).
  repeat split; try lia; Z.to_euclidean_division_equations; lia.
Qed.

(** While the instant lies in [startYear], [set24HourTime] does what is
    asked of it: the date stays and the time of day is the one given. *)
Lemma set24HourTime_same_year (hour minute second : Z) (w : Device) :
  0 <= timeToSetpoint (clock w) + (readingOf w - cpuTimeAtSetpoint (clock w))
    < secondsInYear (isLeapYear (startYear (clock w))) ->
  0 <= hour <= 23 -> 0 <= minute <= 59 -> 0 <= second <= 59 ->
  exists w',
    set24HourTime hour minute second w = Some (tt, w') /\
    readingOf w' = readingOf w /\
    timeFor (clock w') (readingOf w) =
    mkDateTime (month (timeFor (clock w) (readingOf w)))
               (day (timeFor (clock w) (readingOf w)))
               (year (timeFor (clock w) (readingOf w)))
               hour minute second
               (dayOfYear (timeFor (clock w) (readingOf w))).
Proof.
  intros Hs0 Hh Hm Hs.
  set (s0 := timeToSetpoint (clock w) + (readingOf w - cpuTimeAtSetpoint (clock w))) in *.
  set (Y := startYear (clock w)) in *.
  pose proof (secondsInYear_bounds (isLeapYear Y)) as HB.
  assert (E : timeFor (clock w) (readingOf w) = instantAt s0 Y).
  { apply timeFor_rollsTo. apply rolls_exit, yearLoop_cond_false. lia. }
  assert (Hd : 1 <= s0 / 86400 + 1 <= daysInYear Y).
  { unfold daysInYear. unfold secondsInYear in *.
    destruct (isLeapYear Y); Z.to_euclidean_division_equations; lia. }
  unfold set24HourTime. run_M. fold (readingOf w). rewrite E.
  rewrite instantAt_nonneg by lia. cbn [month day year dayOfYear].
  unfold secondsSoFarForYear. rewrite (dateToDayOfYear_inverse _ Y Hd).
  eexists. split; [reflexivity |]. split; [reflexivity |].
  cbn [clock].
  set (T := (((s0 / 86400 + 1 - 1) * 24 + hour) * 60 + minute) * 60 + second).
  destruct (pack_unpack (s0 / 86400 + 1 - 1) hour minute second Hh Hm Hs)
    as (P1 & P2 & P3 & P4). fold T in P1, P2, P3, P4.
  assert (HT : 0 <= T < secondsInYear (isLeapYear Y)).
  { unfold daysInYear in Hd. unfold secondsInYear in *. subst T.
    destruct (isLeapYear Y); lia. }
  rewrite (timeFor_rollsTo _ _ T Y).
  - rewrite instantAt_nonneg by lia.
    rewrite P1, P2, P3, P4.
    replace (s0 / 86400 + 1 - 1 + 1) with (s0 / 86400 + 1) by lia.
    reflexivity.
  - cbn [timeToSetpoint cpuTimeAtSetpoint startYear]. fold Y.
    replace (T + (readingOf w - readingOf w)) with T by lia.
    apply rolls_exit, yearLoop_cond_false. lia.
Qed.

(** ** Where the code leaves its documented ranges *)

Lemma setTime_eq (hour minute second : Z) (ampm : MornNight) (w : Device) :
  setTime hour minute second ampm w =
  set24HourTime
    (match ampm with
     | AM => if hour =? 12 then 0 else if hour <? 12 then hour + 12 else hour
     | PM => if hour <? 12 then hour + 12 else hour
     end) minute second w.
Proof. unfold setTime. destruct ampm; reflexivity. Qed.

(** The three cases of the 12-hour conversion that [setTime] gets right. *)
Lemma setTime_12AM_PM (hour minute second : Z) (w : Device) :
  1 <= hour <= 12 ->
  setTime 12 minute second AM w = set24HourTime 0 minute second w /\
  setTime 12 minute second PM w = set24HourTime 12 minute second w /\
  (hour <> 12 ->
   setTime hour minute second PM w = set24HourTime (hour + 12) minute second w).
Proof.
  intros Hh. rewrite !setTime_eq. repeat split.
  intros Hne. destruct (Z.ltb_spec hour 12); [reflexivity | lia].
Qed.

(** C1: the hours 1..11 AM do not stay as they are, [setTime] adds 12 to
    them as it does to the PM hours: [setTime(11, 30, 0, AM)] is
    [set24HourTime(23, 30, 0)], and the clock then reads 23:30.00 where
    11:30.00 was asked for. *)
Theorem setTime_AM_hour_shifted :
  (forall hour minute second w,
      1 <= hour <= 11 ->
      setTime hour minute second AM w
      = set24HourTime (hour + 12) minute second w) /\
  (forall w, setTime 11 30 0 AM w = set24HourTime 23 30 0 w) /\
  option_map fst
    ((setTime 11 30 0 AM ;;; time HHMM24hr)
       (mkDevice (mkClockState 2024 0 0) 0 []))
  = Some "23:30.00"%string /\
  option_map fst
    ((set24HourTime 11 30 0 ;;; time HHMM24hr)
       (mkDevice (mkClockState 2024 0 0) 0 []))
  = Some "11:30.00"%string.
Proof.
  split.
  { intros hour minute second w Hh. rewrite setTime_eq.
    destruct (Z.eqb_spec hour 12); [lia |].
    destruct (Z.ltb_spec hour 12); [reflexivity | lia]. }
  split; [intros w; apply setTime_eq |].
  split; vm_compute; reflexivity.
Qed.

(** [set24HourTime] never writes [startYear]. *)
Lemma set24HourTime_startYear (hour minute second : Z) (w w' : Device) :
  set24HourTime hour minute second w = Some (tt, w') ->
  startYear (clock w') = startYear (clock w).
Proof.
  unfold set24HourTime. run_M.
  destruct (secondsSoFarForYear _ _ _ _ _ _); [| discriminate].
  intros [= <-]. reflexivity.
Qed.

(** C2: [set24HourTime] keeps [startYear] also when the instant it resolves
    lies in a later year, and the date is lost.  The clock is set to
    2023-12-31 23:59:30 at reading 0; at reading 60 it shows
    2024-01-01 00:00:30; [set24HourTime(10, 0, 0)] at that reading leaves
    [startYear] at 2023 and the clock shows 2023-01-01 10:00:00. *)
Theorem set24HourTime_loses_year :
  (setDate 12 31 2023 ;;; set24HourTime 23 59 30)
    (mkDevice (mkClockState 0 0 0) 0 [])
  = Some (tt, mkDevice (mkClockState 2023 31535970 0) 0 []) /\
  let w := mkDevice (mkClockState 2023 31535970 0) 60000 [] in
  readingOf w = 60 /\
  timeFor (clock w) 60 = mkDateTime 1 1 2024 0 0 30 1 /\
  set24HourTime 10 0 0 w
  = Some (tt, mkDevice (mkClockState 2023 36000 60) 60000 []) /\
  timeFor (mkClockState 2023 36000 60) 60 = mkDateTime 1 1 2023 10 0 0 1.
Proof. vm_compute. repeat split; reflexivity. Qed.

(** C7: at the very end of a year the loop of [timeFor] stops one second
    early ([>] where the year is over at [>=]).  With the clock set to
    2023-12-31 23:59:59 at reading 0, the instant at reading 1 has day of
    the year 366 in a year of 365 days and the sentinel -1 as month and
    day; at the end of the leap year 2024 the day of the year is 367. *)
Theorem timeFor_end_of_year :
  (setDate 12 31 2023 ;;; set24HourTime 23 59 59)
    (mkDevice (mkClockState 0 0 0) 0 [])
  = Some (tt, mkDevice (mkClockState 2023 31535999 0) 0 []) /\
  0 <= timeToSetpoint (mkClockState 2023 31535999 0) /\
  cpuTimeAtSetpoint (mkClockState 2023 31535999 0) <= 1 /\
  timeFor (mkClockState 2023 31535999 0) 1
  = mkDateTime (-1) (-1) 2023 0 0 0 366 /\
  timeFor (mkClockState 2024 31622399 0) 1
  = mkDateTime (-1) (-1) 2024 0 0 0 367.
Proof. vm_compute. repeat split; try reflexivity; discriminate. Qed.

(** ** The examples of the documentation, run *)

Example setpoint_consistency :
  option_map fst
    ((setDate 6 15 2024 ;;; set24HourTime 10 30 0 ;;; dateTime)
       (mkDevice (mkClockState 0 0 0) 5000 []))
  = Some "2024-06-15 10:30.00"%string.
Proof. vm_compute. reflexivity. Qed.

Example time_AMPM_midnight_and_one :
  option_map fst
    ((set24HourTime 0 0 0 ;;; time AMPM) (mkDevice (mkClockState 2024 0 0) 0 []))
  = Some "12:00.00am"%string /\
  option_map fst
    ((set24HourTime 13 0 0 ;;; time AMPM) (mkDevice (mkClockState 2024 0 0) 0 []))
  = Some "1:00.00pm"%string.
Proof. vm_compute. split; reflexivity. Qed.

Example isLeapYear_spot_checks :
  isLeapYear 2000 = true /\ isLeapYear 1900 = false /\
  isLeapYear 2024 = true /\ isLeapYear 2023 = false.
Proof. repeat split; reflexivity. Qed.

(** * Further properties *)

(** ** The calendar functions *)

(** X1. On the days 1..365 of a year (1..366 of a leap year),
    [dateToDayOfYear] undoes [dayOfYearToMonthAndDay]. *)
Theorem dateToDayOfYear_of_monthAndDay (d y : Z) :
  1 <= d <= (if isLeapYear y then 366 else 365) ->
  dateToDayOfYear (month (dayOfYearToMonthAndDay d y))
                  (day (dayOfYearToMonthAndDay d y)) y = Some d.
Proof. exact (dateToDayOfYear_inverse d y). Qed.

Lemma dateToDayOfYear_of_monthAndDay_witness :
  dateToDayOfYear (month (dayOfYearToMonthAndDay 60 2024))
                  (day (dayOfYearToMonthAndDay 60 2024)) 2024 = Some 60.
Proof.
  apply (dateToDayOfYear_of_monthAndDay 60 2024).
  change (isLeapYear 2024) with true. lia.
Defined.

(** The day of the year of a date lies between the days before its month
    and the days up to its end. *)
Lemma dateToDayOfYear_within_month (m d y : Z) :
  validDate m d y ->
  exists a b c,
    dateToDayOfYear m d y = Some a /\
    dateToDayOfYear m 0 y = Some b /\
    dateToDayOfYear m (daysInMonth m y) y = Some c /\
    0 <= b < a /\ a <= c <= daysInYear y /\ a = b + d.
Proof.
  intros [Hm Hd]. unfold dateToDayOfYear, daysInYear.
  month_cases m.
  all: eval_cdoy; cbv beta iota zeta.
  all: cbn [daysInMonth Z.gtb Z.compare Pos.compare Pos.compare_cont andb] in *.
  all: destruct (isLeapYear y).
  all: do 3 eexists; repeat (split; [reflexivity |]); lia.
Qed.

Lemma dateToDayOfYear_month_ends (m1 m2 y : Z) :
  1 <= m1 -> m1 < m2 -> m2 <= 12 ->
  exists c b,
    dateToDayOfYear m1 (daysInMonth m1 y) y = Some c /\
    dateToDayOfYear m2 0 y = Some b /\ c <= b.
Proof.
  intros H1 H12 H2. unfold dateToDayOfYear.
  assert (Hm1 : 1 <= m1 <= 12) by lia. assert (Hm2 : 1 <= m2 <= 12) by lia.
  month_cases m1.
  all: month_cases m2; try lia.
  all: eval_cdoy; cbv beta iota zeta.
  all: cbn [daysInMonth Z.gtb Z.compare Pos.compare Pos.compare_cont andb].
  all: destruct (isLeapYear y).
  all: do 2 eexists; repeat (split; [reflexivity |]); lia.
Qed.

(** X2. [dateToDayOfYear] maps the dates of a year into its days 1..365
    (1..366 in a leap year) and keeps their order: a later date of the same
    year has a larger day of the year. *)
Theorem dateToDayOfYear_increasing (m1 d1 m2 d2 y : Z) :
  validDate m1 d1 y -> validDate m2 d2 y ->
  m1 < m2 \/ (m1 = m2 /\ d1 < d2) ->
  exists a b,
    dateToDayOfYear m1 d1 y = Some a /\
    dateToDayOfYear m2 d2 y = Some b /\
    1 <= a /\ a < b /\ b <= (if isLeapYear y then 366 else 365).
Proof.
  intros V1 V2 Hlt.
  destruct (dateToDayOfYear_within_month _ _ _ V1)
    as (a & b1 & c1 & Ea & Eb1 & Ec1 & Hb1 & Hc1 & Ha).
  destruct (dateToDayOfYear_within_month _ _ _ V2)
    as (b & b2 & c2 & Eb & Eb2 & Ec2 & Hb2 & Hc2 & Hb).
  exists a, b. split; [exact Ea |]. split; [exact Eb |].
  unfold daysInYear in *. destruct V1 as [Hm1 Hd1], V2 as [Hm2 Hd2].
  destruct Hlt as [Hm | [-> Hd]].
  - destruct (dateToDayOfYear_month_ends m1 m2 y) as (c & b' & Ec & Eb' & Hle);
      try lia.
    rewrite Ec in Ec1. rewrite Eb' in Eb2.
    injection Ec1 as <-. injection Eb2 as <-. lia.
  - rewrite Eb1 in Eb2. injection Eb2 as <-. lia.
Qed.

Lemma dateToDayOfYear_increasing_witness :
  exists a b,
    dateToDayOfYear 2 28 2023 = Some a /\
    dateToDayOfYear 3 1 2023 = Some b /\
    1 <= a /\ a < b /\ b <= (if isLeapYear 2023 then 366 else 365).
Proof.
  apply (dateToDayOfYear_increasing 2 28 3 1 2023).
  - unfold validDate. change (daysInMonth 2 2023) with 28. lia.
  - unfold validDate. change (daysInMonth 3 2023) with 31. lia.
  - lia.
Defined.

(** X3. [dateToDayOfYear] reads [cdoy[m]] without a check of [m]: it is a
    number exactly for the 14 indices of the table, 0 <= m <= 13, whatever
    the day and the year; outside them the read is [undefined]. *)
Theorem dateToDayOfYear_defined_iff (m d y : Z) :
  (exists n, dateToDayOfYear m d y = Some n) <-> 0 <= m <= 13.
Proof.
  pose proof (arr_at_Some cdoy m) as H.
  change (Z.of_nat (List.length cdoy)) with 14 in H.
  unfold dateToDayOfYear.
  destruct (arr_at cdoy m) as [c |].
  - split; [intros _ | intros _; eexists; reflexivity].
    assert (0 <= m < 14) by (apply H; eauto). lia.
  - split; [intros [n Hn]; discriminate |].
    intros Hm. assert (Hex : exists c, None = Some c) by (apply H; lia).
    destruct Hex as [c Hc]. discriminate.
Qed.

(** X4. [isLeapYear] is the Gregorian rule in terms of divisibility, for
    every integer year, negative ones included (where [%] gives negative
    remainders). *)
Theorem isLeapYear_gregorian (y : Z) :
  isLeapYear y = true <->
  (400 | y) \/ (~ (100 | y) /\ (4 | y)).
Proof.
  unfold isLeapYear, js_rem.
  rewrite orb_true_iff, andb_true_iff, negb_true_iff, Z.eqb_neq, !Z.eqb_eq.
  rewrite !Z.rem_divide by lia. reflexivity.
Qed.


(** ** The resolver *)

(** [timeFor] depends on the state and the reading only through
    [startYear] and the seconds since its start. *)
Lemma timeFor_ext (st1 st2 : ClockState) (e1 e2 : Z) :
  startYear st1 = startYear st2 ->
  secondsAt st1 e1 = secondsAt st2 e2 ->
  timeFor st1 e1 = timeFor st2 e2.
Proof.
  unfold secondsAt, timeFor. intros EY Es. cbv zeta. rewrite EY, Es. reflexivity.
Qed.

Lemma rollsTo_years (s y s' y' : Z) :
  rollsTo s y s' y' ->
  exists n : nat, y' = y + Z.of_nat n /\ s = yearsSeconds y n + s'.
Proof.
  induction 1 as [s y C | s y s1 y1 C R (n & Ey & Es)].
  - exists O. cbn [yearsSeconds]. lia.
  - exists (S n). cbn [yearsSeconds]. lia.
Qed.

Lemma rollsTo_year_le (s y s' y' : Z) :
  rollsTo s y s' y' ->
  y <= y' /\ (y' = y <-> s <= secondsInYear (isLeapYear y)).
Proof.
  induction 1 as [s y C | s y s1 y1 C R [IH _]].
  - apply yearLoop_cond_false in C. split; [lia |]. split; auto.
  - apply yearLoop_cond_true in C. split; [lia |]. split; lia.
Qed.

(** The time of day and the day of the year of a non-negative number of
    seconds within a year. *)
Lemma instantAt_fields (s y : Z) :
  0 <= s <= secondsInYear (isLeapYear y) ->
  let t := instantAt s y in
  year t = y /\
  s = (((dayOfYear t - 1) * 24 + hour t) * 60 + minute t) * 60 + second t /\
  0 <= hour t <= 23 /\ 0 <= minute t <= 59 /\ 0 <= second t <= 59 /\
  1 <= dayOfYear t <= daysInYear y + 1.
Proof.
  intros Hs t. subst t.
  pose proof (secondsInYear_bounds (isLeapYear y)) as HB.
  rewrite instantAt_nonneg by lia.
  cbn [year dayOfYear hour minute second].
  unfold daysInYear. unfold secondsInYear in Hs.
  destruct (isLeapYear y);
    repeat split; Z.to_euclidean_division_equations; lia.
Qed.

(** A setpoint made by [secondsSoFarForYear] resolves to its date and time. *)
Lemma secondsSoFarForYear_resolves (m d y hh mm ss : Z) :
  validDate m d y -> validTime hh mm ss ->
  exists T doy,
    secondsSoFarForYear m d y hh mm ss = Some T /\
    dateToDayOfYear m d y = Some doy /\
    0 <= T < secondsInYear (isLeapYear y) /\
    forall cpuTime,
      timeFor (mkClockState y T cpuTime) cpuTime
      = mkDateTime m d y hh mm ss doy.
Proof.
  intros V (Hh & Hm & Hs).
  destruct (dateToDayOfYear_within_month _ _ _ V)
    as (doy & b & c & Ea & _ & _ & Hb & Hc & _).
  destruct V as [Vm Vd].
  destruct (roundtrip_month_day m d y Vm Vd) as (doy' & Ea' & Em & Ed).
  rewrite Ea in Ea'. injection Ea' as <-.
  unfold secondsSoFarForYear. rewrite Ea.
  eexists. exists doy. split; [reflexivity |]. split; [reflexivity |].
  set (T := (((doy - 1) * 24 + hh) * 60 + mm) * 60 + ss).
  destruct (pack_unpack (doy - 1) hh mm ss Hh Hm Hs) as (P1 & P2 & P3 & P4).
  fold T in P1, P2, P3, P4.
  assert (HT : 0 <= T < secondsInYear (isLeapYear y)).
  { unfold daysInYear in Hc. unfold secondsInYear. subst T.
    destruct (isLeapYear y); lia. }
  split; [exact HT |]. intros cpuTime.
  pose proof (secondsInYear_bounds (isLeapYear y)) as HB.
  rewrite (timeFor_rollsTo _ _ T y).
  - rewrite instantAt_nonneg by lia. rewrite P1, P2, P3, P4.
    replace (doy - 1 + 1) with doy by lia. rewrite Em, Ed. reflexivity.
  - cbn [timeToSetpoint cpuTimeAtSetpoint startYear].
    replace (T + (cpuTime - cpuTime)) with T by lia.
    apply rolls_exit, yearLoop_cond_false. lia.
Qed.

(** X5. For a date of the calendar and a time of day,
    [secondsSoFarForYear] gives a number of seconds within the year, and
    [timeFor], at the reading of a setpoint that holds this number for that
    year, gives back the date and the time, with the day of the year of
    [dateToDayOfYear]. *)
Theorem timeFor_of_secondsSoFarForYear (m d y hh mm ss : Z) :
  validDate m d y -> validTime hh mm ss ->
  exists T doy,
    secondsSoFarForYear m d y hh mm ss = Some T /\
    dateToDayOfYear m d y = Some doy /\
    0 <= T < secondsInYear (isLeapYear y) /\
    forall cpuTime,
      timeFor (mkClockState y T cpuTime) cpuTime
      = mkDateTime m d y hh mm ss doy.
Proof. exact (secondsSoFarForYear_resolves m d y hh mm ss). Qed.

Lemma timeFor_of_secondsSoFarForYear_witness :
  exists T doy,
    secondsSoFarForYear 2 29 2024 13 5 59 = Some T /\
    dateToDayOfYear 2 29 2024 = Some doy /\
    0 <= T < secondsInYear (isLeapYear 2024) /\
    forall cpuTime,
      timeFor (mkClockState 2024 T cpuTime) cpuTime
      = mkDateTime 2 29 2024 13 5 59 doy.
Proof.
  apply (timeFor_of_secondsSoFarForYear 2 29 2024 13 5 59).
  - unfold validDate. change (daysInMonth 2 2024) with 29. lia.
  - unfold validTime. lia.
Defined.

(** X6. From the start of [startYear] on, [timeFor] accounts for every
    second: the seconds since the start of [startYear] are those of the
    whole years it stepped over, plus those of the day of the year, hour,
    minute and second it returns; hour, minute and second are in range and
    the day of the year is at most one more than the days of the year. *)
Theorem timeFor_accounts_for_seconds (st : ClockState) (e : Z) :
  0 <= secondsAt st e ->
  let t := timeFor st e in
  exists n : nat,
    year t = startYear st + Z.of_nat n /\
    secondsAt st e
    = yearsSeconds (startYear st) n
      + ((((dayOfYear t - 1) * 24 + hour t) * 60 + minute t) * 60 + second t) /\
    0 <= hour t <= 23 /\ 0 <= minute t <= 59 /\ 0 <= second t <= 59 /\
    1 <= dayOfYear t <= (if isLeapYear (year t) then 366 else 365) + 1.
Proof.
  intros H0 t. subst t.
  destruct (timeFor_instantAt st e) as (s & y & R & E).
  fold (secondsAt st e) in R. rewrite E.
  destruct (rollsTo_years _ _ _ _ R) as (n & Ey & Es).
  pose proof (rollsTo_nonneg _ _ _ _ R H0) as Hs.
  pose proof (rollsTo_exit_cond _ _ _ _ R) as Hle.
  destruct (instantAt_fields s y (conj Hs Hle)) as (Fy & Fs & Fh & Fm & Fsec & Fd).
  exists n. rewrite Fy. unfold daysInYear in Fd.
  repeat split; try lia.
Qed.

Lemma timeFor_accounts_for_seconds_witness :
  let t := timeFor (mkClockState 2023 100 0) (800 * 86400) in
  exists n : nat,
    year t = 2023 + Z.of_nat n /\
    secondsAt (mkClockState 2023 100 0) (800 * 86400)
    = yearsSeconds 2023 n
      + ((((dayOfYear t - 1) * 24 + hour t) * 60 + minute t) * 60 + second t) /\
    0 <= hour t <= 23 /\ 0 <= minute t <= 59 /\ 0 <= second t <= 59 /\
    1 <= dayOfYear t <= (if isLeapYear (year t) then 366 else 365) + 1.
Proof.
  apply (timeFor_accounts_for_seconds (mkClockState 2023 100 0) (800 * 86400)).
  vm_compute. discriminate.
Defined.

(** X7. [timeFor] never returns a year before [startYear]; it returns
    [startYear] itself exactly when the seconds since its start do not
    exceed the seconds of that year. *)
Theorem timeFor_year_from_startYear (st : ClockState) (e : Z) :
  startYear st <= year (timeFor st e) /\
  (year (timeFor st e) = startYear st
   <-> secondsAt st e
       <= (if isLeapYear (startYear st) then 366 else 365) * 86400).
Proof.
  destruct (timeFor_instantAt st e) as (s & y & R & E).
  fold (secondsAt st e) in R. rewrite E.
  change (year (instantAt s y)) with y.
  destruct (rollsTo_year_le _ _ _ _ R) as [Hle Hiff].
  split; [exact Hle |]. rewrite Hiff. unfold secondsInYear.
  destruct (isLeapYear (startYear st)); lia.
Qed.

(** X8. Before the start of [startYear] the resolver does not go back a
    year: for a negative number of seconds (within 32 bits) it returns
    [startYear], month 1, a day equal to a day of the year that is at most
    1, and an hour, minute and second that are zero or negative, one of
    these values at least being out of its range. *)
Theorem timeFor_before_startYear (st : ClockState) (e : Z) :
  - 2 ^ 31 <= secondsAt st e < 0 ->
  let t := timeFor st e in
  year t = startYear st /\ month t = 1 /\ day t = dayOfYear t /\
  dayOfYear t <= 1 /\ hour t <= 0 /\ minute t <= 0 /\ second t <= 0 /\
  (dayOfYear t <= 0 \/ hour t < 0 \/ minute t < 0 \/ second t < 0).
Proof.
  intros Hs t. subst t.
  pose proof (secondsInYear_bounds (isLeapYear (startYear st))) as HB.
  rewrite (timeFor_rollsTo st e (secondsAt st e) (startYear st))
    by (apply rolls_exit, yearLoop_cond_false; lia).
  set (s := secondsAt st e) in *.
  unfold instantAt. cbn [year month day dayOfYear hour minute second].
  unfold js_rem.
  change (24 * 60 * 60) with 86400. change (60 * 60) with 3600.
  assert (Hr1 : - 86400 < Z.rem s 86400 <= 0)
    by (Z.to_euclidean_division_equations; lia).
  assert (Hr2 : - 3600 < Z.rem (Z.rem s 86400) 3600 <= 0)
    by (Z.to_euclidean_division_equations; lia).
  rewrite !Math_idiv_quot by lia.
  assert (Hd : Z.quot s 86400 + 1 <= 1)
    by (Z.to_euclidean_division_equations; lia).
  assert (Emd : dayOfYearToMonthAndDay (Z.quot s 86400 + 1) (startYear st)
                = mkDateTime 1 (Z.quot s 86400 + 1 - 0) 0 0 0 0 0).
  { rewrite dayOfYearToMonthAndDay_eq, monthLoop_cdoy.
    destruct (isLeapYear (startYear st)); cbn [andb];
      split_cmp; try lia; reflexivity. }
  rewrite Emd. cbn [month day].
  repeat split; try lia; Z.to_euclidean_division_equations; lia.
Qed.

Lemma timeFor_before_startYear_witness :
  let t := timeFor (mkClockState 2024 0 3600) 0 in
  year t = 2024 /\ month t = 1 /\ day t = dayOfYear t /\
  dayOfYear t <= 1 /\ hour t <= 0 /\ minute t <= 0 /\ second t <= 0 /\
  (dayOfYear t <= 0 \/ hour t < 0 \/ minute t < 0 \/ second t < 0).
Proof.
  apply (timeFor_before_startYear (mkClockState 2024 0 3600) 0).
  vm_compute. split; [discriminate | reflexivity].
Defined.

(** X9. From the start of [startYear] on, [timeFor] returns either an
    instant within the ranges written on [DateTime], with a day of the
    month that exists, or, on the one second at which the year of its
    loop is just over, midnight with the sentinel -1 as month and day and
    the day of the year one past the last. *)
Theorem timeFor_ranges_or_year_end (st : ClockState) (e : Z) :
  0 <= secondsAt st e ->
  let t := timeFor st e in
  (1 <= month t <= 12 /\ 1 <= day t <= daysInMonth (month t) (year t) /\
   day t <= 31 /\ 0 <= hour t <= 23 /\ 0 <= minute t <= 59 /\
   0 <= second t <= 59 /\
   1 <= dayOfYear t <= (if isLeapYear (year t) then 366 else 365))
  \/
  (month t = -1 /\ day t = -1 /\ hour t = 0 /\ minute t = 0 /\ second t = 0 /\
   dayOfYear t = (if isLeapYear (year t) then 366 else 365) + 1).
Proof.
  intros H0 t. subst t.
  destruct (timeFor_instantAt st e) as (s & y & R & E).
  fold (secondsAt st e) in R. rewrite E.
  pose proof (rollsTo_nonneg _ _ _ _ R H0) as Hs.
  pose proof (rollsTo_exit_cond _ _ _ _ R) as Hle.
  destruct (instantAt_fields s y (conj Hs Hle)) as (Fy & Fs & Fh & Fm & Fsec & Fd).
  change (year (instantAt s y)) with y.
  change (month (instantAt s y))
    with (month (dayOfYearToMonthAndDay (dayOfYear (instantAt s y)) y)).
  change (day (instantAt s y))
    with (day (dayOfYearToMonthAndDay (dayOfYear (instantAt s y)) y)).
  destruct (Z.le_gt_cases (dayOfYear (instantAt s y)) (daysInYear y)) as [Hin | Hout].
  - left.
    assert (Hd : 1 <= dayOfYear (instantAt s y) <= daysInYear y) by lia.
    destruct (dayOfYearToMonthAndDay_valid _ y Hd) as [Hm Hday].
    pose proof (daysInMonth_le_31
                  (month (dayOfYearToMonthAndDay (dayOfYear (instantAt s y)) y)) y).
    unfold daysInYear in Hd. repeat split; lia.
  - right.
    destruct (proj2 (dayOfYearToMonthAndDay_sentinel _ y) Hout) as [Em Ed].
    unfold daysInYear, secondsInYear in *.
    destruct (isLeapYear y); repeat split; try assumption; lia.
Qed.

Lemma timeFor_ranges_or_year_end_witness :
  let t := timeFor (mkClockState 2024 31622399 0) 0 in
  (1 <= month t <= 12 /\ 1 <= day t <= daysInMonth (month t) (year t) /\
   day t <= 31 /\ 0 <= hour t <= 23 /\ 0 <= minute t <= 59 /\
   0 <= second t <= 59 /\
   1 <= dayOfYear t <= (if isLeapYear (year t) then 366 else 365))
  \/
  (month t = -1 /\ day t = -1 /\ hour t = 0 /\ minute t = 0 /\ second t = 0 /\
   dayOfYear t = (if isLeapYear (year t) then 366 else 365) + 1).
Proof.
  apply (timeFor_ranges_or_year_end (mkClockState 2024 31622399 0) 0).
  vm_compute. discriminate.
Defined.


Lemma month_sentinel_iff (d y : Z) :
  month (dayOfYearToMonthAndDay d y) = -1 <-> daysInYear y < d.
Proof.
  rewrite dayOfYearToMonthAndDay_eq, monthLoop_cdoy. unfold daysInYear.
  destruct (isLeapYear y); cbn [andb]; split_cmp; cbn [month]; lia.
Qed.

(** X10. The clock ticks: from the start of [startYear] on, when the
    instant at a reading is not the year-end sentinel and its second is
    below 59, the instant one second later is the same with the second one
    higher. *)
Theorem timeFor_tick (st : ClockState) (e : Z) :
  0 <= secondsAt st e ->
  month (timeFor st e) <> -1 ->
  second (timeFor st e) < 59 ->
  timeFor st (e + 1)
  = mkDateTime (month (timeFor st e)) (day (timeFor st e))
               (year (timeFor st e)) (hour (timeFor st e))
               (minute (timeFor st e)) (second (timeFor st e) + 1)
               (dayOfYear (timeFor st e)).
Proof.
  intros H0.
  destruct (timeFor_instantAt st e) as (s & y & R & E).
  fold (secondsAt st e) in R. rewrite E.
  pose proof (rollsTo_nonneg _ _ _ _ R H0) as Hs.
  pose proof (rollsTo_exit_cond _ _ _ _ R) as Hle.
  pose proof (secondsInYear_bounds (isLeapYear y)) as HB.
  intros Hmo Hsec.
  assert (Hlt : s < secondsInYear (isLeapYear y)).
  { destruct (Z.lt_ge_cases s (secondsInYear (isLeapYear y))) as [? | Hge];
      [assumption | exfalso].
    apply Hmo.
    change (month (instantAt s y))
      with (month (dayOfYearToMonthAndDay (dayOfYear (instantAt s y)) y)).
    apply month_sentinel_iff.
    destruct (instantAt_fields s y (conj Hs Hle)) as (_ & Fs & Fh & Fm & Fse & _).
    unfold daysInYear, secondsInYear in *.
    destruct (isLeapYear y); lia. }
  assert (R1 : rollsTo (secondsAt st (e + 1)) (startYear st) (s + 1) y).
  { replace (secondsAt st (e + 1)) with (secondsAt st e + 1)
      by (unfold secondsAt; lia).
    apply (rollsTo_shift _ _ _ _ R 1); [lia |].
    apply rolls_exit, yearLoop_cond_false. lia. }
  rewrite (timeFor_rollsTo st (e + 1) _ _ R1).
  rewrite (instantAt_nonneg s y) in Hsec |- * by lia.
  rewrite (instantAt_nonneg (s + 1) y) by lia.
  cbn [month day year hour minute second dayOfYear] in *.
  assert (D1 : (s + 1) / 86400 = s / 86400)
    by (Z.to_euclidean_division_equations; lia).
  assert (D2 : (s + 1) mod 86400 = s mod 86400 + 1)
    by (Z.to_euclidean_division_equations; lia).
  rewrite D1, D2.
  assert (D3 : (s mod 86400 + 1) / 3600 = s mod 86400 / 3600)
    by (Z.to_euclidean_division_equations; lia).
  assert (D4 : (s mod 86400 + 1) mod 3600 = s mod 86400 mod 3600 + 1)
    by (Z.to_euclidean_division_equations; lia).
  rewrite D3, D4.
  assert (D5 : (s mod 86400 mod 3600 + 1) / 60 = s mod 86400 mod 3600 / 60)
    by (Z.to_euclidean_division_equations; lia).
  assert (D6 : (s mod 86400 mod 3600 + 1) mod 60 = s mod 86400 mod 3600 mod 60 + 1)
    by (Z.to_euclidean_division_equations; lia).
  rewrite D5, D6. reflexivity.
Qed.

Lemma timeFor_tick_witness :
  timeFor (mkClockState 2024 100 0) (0 + 1)
  = mkDateTime (month (timeFor (mkClockState 2024 100 0) 0))
               (day (timeFor (mkClockState 2024 100 0) 0))
               (year (timeFor (mkClockState 2024 100 0) 0))
               (hour (timeFor (mkClockState 2024 100 0) 0))
               (minute (timeFor (mkClockState 2024 100 0) 0))
               (second (timeFor (mkClockState 2024 100 0) 0) + 1)
               (dayOfYear (timeFor (mkClockState 2024 100 0) 0)).
Proof.
  apply (timeFor_tick (mkClockState 2024 100 0) 0);
    vm_compute; (discriminate || reflexivity).
Defined.

(** ** The operations that set the clock *)

(** X11. [advanceBy] moves the clock exactly as the reading would: after
    [advanceBy(amount, unit)] the instant at a reading [e] is the instant
    that the state before gave at the reading [e + amount * k], where [k]
    is 0, 1, 60, 3600, 86400 for ms, Seconds, Minutes, Hours, Days. *)
Theorem advanceBy_shifts_reading (amount : Z) (unit : TimeUnit) (w : Device) (e : Z) :
  exists w',
    advanceBy amount unit w = Some (tt, w') /\
    timeFor (clock w') e
    = timeFor (clock w)
        (e + amount * match unit with
                      | Milliseconds => 0
                      | Seconds => 1
                      | Minutes => 60
                      | Hours => 3600
                      | Days => 86400
                      end).
Proof.
  rewrite advanceBy_eq. eexists. split; [reflexivity |].
  cbn [clock]. apply timeFor_ext; [reflexivity |].
  unfold secondsAt. cbn [timeToSetpoint cpuTimeAtSetpoint]. lia.
Qed.

(** X12. Two calls of [advanceBy] with the same unit leave the state
    variables as one call with the sum of the amounts does; so advancing by
    an amount and then by its opposite restores them. *)
Theorem advanceBy_adds_up (a b : Z) (unit : TimeUnit) (w : Device) :
  option_map (fun r => clock (snd r)) ((advanceBy a unit ;;; advanceBy b unit) w)
  = option_map (fun r => clock (snd r)) (advanceBy (a + b) unit w) /\
  option_map (fun r => clock (snd r)) ((advanceBy a unit ;;; advanceBy (- a) unit) w)
  = Some (clock w).
Proof.
  unfold bind. rewrite !advanceBy_eq.
  cbn [option_map snd clock startYear timeToSetpoint cpuTimeAtSetpoint].
  split; f_equal.
  - f_equal. lia.
  - destruct (clock w) as [Y T C].
    cbn [startYear timeToSetpoint cpuTimeAtSetpoint]. f_equal. lia.
Qed.

(** X13. While the instant lies in [startYear] (from its start up to, not
    including, its end), [set24HourTime] with a time of day keeps month,
    day, year and day of the year and sets hour, minute and second to its
    arguments, as resolved at the reading of the call. *)
Theorem set24HourTime_keeps_date (hh mm ss : Z) (w : Device) :
  0 <= secondsAt (clock w) (readingOf w)
    < (if isLeapYear (startYear (clock w)) then 366 else 365) * 86400 ->
  validTime hh mm ss ->
  exists w',
    set24HourTime hh mm ss w = Some (tt, w') /\
    readingOf w' = readingOf w /\
    timeFor (clock w') (readingOf w) =
    mkDateTime (month (timeFor (clock w) (readingOf w)))
               (day (timeFor (clock w) (readingOf w)))
               (year (timeFor (clock w) (readingOf w)))
               hh mm ss
               (dayOfYear (timeFor (clock w) (readingOf w))).
Proof.
  intros Hs (Hh & Hm & Hsec).
  apply set24HourTime_same_year; try assumption.
  unfold secondsAt in Hs. unfold secondsInYear.
  destruct (isLeapYear (startYear (clock w))); lia.
Qed.

Lemma set24HourTime_keeps_date_witness :
  exists w',
    set24HourTime 7 8 9 (mkDevice (mkClockState 2024 86400 0) 5000 [])
    = Some (tt, w') /\
    readingOf w' = readingOf (mkDevice (mkClockState 2024 86400 0) 5000 []) /\
    timeFor (clock w') 5 = mkDateTime 1 2 2024 7 8 9 2.
Proof.
  apply (set24HourTime_keeps_date 7 8 9
           (mkDevice (mkClockState 2024 86400 0) 5000 []));
    [vm_compute; split; [discriminate | reflexivity] | unfold validTime; lia].
Defined.

(** What [setDate] leaves, from the start of [startYear] on. *)
Lemma setDate_state (m d y : Z) (w : Device) :
  0 <= secondsAt (clock w) (readingOf w) ->
  validDate m d y ->
  exists T doy,
    setDate m d y w
    = Some (tt, mkDevice (mkClockState y T (readingOf w))
                         (runningTime w) (serial w)) /\
    dateToDayOfYear m d y = Some doy /\
    0 <= T < secondsInYear (isLeapYear y) /\
    timeFor (mkClockState y T (readingOf w)) (readingOf w)
    = mkDateTime m d y
        (hour (timeFor (clock w) (readingOf w)))
        (minute (timeFor (clock w) (readingOf w)))
        (second (timeFor (clock w) (readingOf w))) doy.
Proof.
  intros H0 V.
  destruct (timeFor_instantAt (clock w) (readingOf w)) as (s & y0 & R & E).
  fold (secondsAt (clock w) (readingOf w)) in R.
  pose proof (rollsTo_nonneg _ _ _ _ R H0) as Hs.
  pose proof (rollsTo_exit_cond _ _ _ _ R) as Hle.
  destruct (instantAt_fields s y0 (conj Hs Hle)) as (_ & _ & Fh & Fm & Fsec & _).
  rewrite <- E in Fh, Fm, Fsec.
  destruct (secondsSoFarForYear_resolves m d y _ _ _ V (conj Fh (conj Fm Fsec)))
    as (T & doy & ET & Edoy & HT & Ht).
  exists T, doy.
  split; [| split; [exact Edoy | split; [exact HT | apply Ht]]].
  unfold setDate. run_M. fold (readingOf w).
  cbn [clock startYear timeToSetpoint cpuTimeAtSetpoint runningTime serial].
  rewrite ET. reflexivity.
Qed.

(** X14. From the start of [startYear] on, [setDate] with a date of the
    calendar makes [startYear] the given year and the resolved instant, at
    the reading of the call, the given date at the time of day that the
    clock showed before the call. *)
Theorem setDate_keeps_time_of_day (m d y : Z) (w : Device) :
  0 <= secondsAt (clock w) (readingOf w) ->
  validDate m d y ->
  exists w' doy,
    setDate m d y w = Some (tt, w') /\
    readingOf w' = readingOf w /\
    startYear (clock w') = y /\
    dateToDayOfYear m d y = Some doy /\
    timeFor (clock w') (readingOf w)
    = mkDateTime m d y
        (hour (timeFor (clock w) (readingOf w)))
        (minute (timeFor (clock w) (readingOf w)))
        (second (timeFor (clock w) (readingOf w))) doy.
Proof.
  intros H0 V.
  destruct (setDate_state m d y w H0 V) as (T & doy & E & Edoy & _ & Ht).
  eexists. exists doy. split; [exact E |].
  repeat split; assumption.
Qed.

Lemma setDate_keeps_time_of_day_witness :
  exists w' doy,
    setDate 2 29 2024 (mkDevice (mkClockState 2023 3723 0) 0 []) = Some (tt, w') /\
    readingOf w' = readingOf (mkDevice (mkClockState 2023 3723 0) 0 []) /\
    startYear (clock w') = 2024 /\
    dateToDayOfYear 2 29 2024 = Some doy /\
    timeFor (clock w') 0 = mkDateTime 2 29 2024 1 2 3 doy.
Proof.
  apply (setDate_keeps_time_of_day 2 29 2024
           (mkDevice (mkClockState 2023 3723 0) 0 [])).
  - vm_compute. discriminate.
  - unfold validDate. change (daysInMonth 2 2024) with 29. lia.
Defined.

(** X15. From the start of [startYear] on, [setDate] with a date of the
    calendar followed at the same reading by [set24HourTime] with a time of
    day sets the clock to exactly that date and time, whatever it showed
    before, and [dateTime] then returns this instant formatted. *)
Theorem setDate_then_set24HourTime (m d y hh mm ss : Z) (w : Device) :
  0 <= secondsAt (clock w) (readingOf w) ->
  validDate m d y -> validTime hh mm ss ->
  exists w' doy,
    (setDate m d y ;;; set24HourTime hh mm ss) w = Some (tt, w') /\
    dateToDayOfYear m d y = Some doy /\
    timeFor (clock w') (readingOf w') = mkDateTime m d y hh mm ss doy /\
    dateTime w'
    = Some ((fullYear (mkDateTime m d y hh mm ss doy) ++ " "
             ++ fullTime (mkDateTime m d y hh mm ss doy))%string, w').
Proof.
  intros H0 V Vt.
  destruct (setDate_state m d y w H0 V) as (T & doy & E & Edoy & HT & Ht).
  set (w1 := mkDevice (mkClockState y T (readingOf w)) (runningTime w) (serial w)) in *.
  destruct Vt as (Hh & Hm & Hsec).
  destruct (set24HourTime_same_year hh mm ss w1) as (w' & E' & Er & Ht');
    try assumption.
  { cbn [w1 clock timeToSetpoint cpuTimeAtSetpoint startYear].
    change (readingOf w1) with (readingOf w). lia. }
  change (readingOf w1) with (readingOf w) in Er, Ht'.
  cbn [w1 clock] in Ht'. rewrite Ht in Ht'.
  cbn [month day year dayOfYear] in Ht'.
  exists w', doy. unfold bind. rewrite E.
  split; [exact E' |]. split; [exact Edoy |].
  rewrite Er. split; [exact Ht' |].
  unfold dateTime. run_M. fold (readingOf w'). rewrite Er, Ht'. reflexivity.
Qed.

Lemma setDate_then_set24HourTime_witness :
  exists w' doy,
    (setDate 6 15 2024 ;;; set24HourTime 10 30 0)
      (mkDevice (mkClockState 0 0 0) 5000 []) = Some (tt, w') /\
    dateToDayOfYear 6 15 2024 = Some doy /\
    timeFor (clock w') (readingOf w') = mkDateTime 6 15 2024 10 30 0 doy /\
    dateTime w'
    = Some ((fullYear (mkDateTime 6 15 2024 10 30 0 doy) ++ " "
             ++ fullTime (mkDateTime 6 15 2024 10 30 0 doy))%string, w').
Proof.
  apply (setDate_then_set24HourTime 6 15 2024 10 30 0
           (mkDevice (mkClockState 0 0 0) 5000 [])).
  - vm_compute. discriminate.
  - unfold validDate. change (daysInMonth 6 2024) with 30. lia.
  - unfold validTime. lia.
Defined.

Lemma month_values (d y : Z) :
  month (dayOfYearToMonthAndDay d y) = -1 \/
  1 <= month (dayOfYearToMonthAndDay d y) <= 12.
Proof.
  rewrite dayOfYearToMonthAndDay_eq, monthLoop_cdoy.
  destruct (isLeapYear y); cbn [andb]; split_cmp; cbn [month]; lia.
Qed.

(** X16. [set24HourTime] makes [timeToSetpoint] a number unless the
    instant it resolves carries the sentinel month -1, that is, unless its
    day of the year is past the last day of its year: there [cdoy[-1]] is
    [undefined] and the sum is [NaN] (the model's [None]). *)
Theorem set24HourTime_NaN_iff (hh mm ss : Z) (w : Device) :
  set24HourTime hh mm ss w = None
  <-> (if isLeapYear (year (timeFor (clock w) (readingOf w))) then 366 else 365)
      < dayOfYear (timeFor (clock w) (readingOf w)).
Proof.
  destruct (timeFor_instantAt (clock w) (readingOf w)) as (s & y & R & E).
  unfold set24HourTime. run_M. fold (readingOf w). rewrite E.
  change (year (instantAt s y)) with y.
  change (month (instantAt s y))
    with (month (dayOfYearToMonthAndDay (dayOfYear (instantAt s y)) y)).
  pose proof (month_sentinel_iff (dayOfYear (instantAt s y)) y) as Hiff.
  unfold daysInYear in Hiff. rewrite <- Hiff.
  unfold secondsSoFarForYear, dateToDayOfYear.
  destruct (month_values (dayOfYear (instantAt s y)) y) as [Hm | Hm].
  - rewrite Hm. cbn. split; reflexivity || auto.
  - assert (Hex : exists c,
               arr_at cdoy (month (dayOfYearToMonthAndDay
                                     (dayOfYear (instantAt s y)) y)) = Some c).
    { apply arr_at_Some. change (Z.of_nat (List.length cdoy)) with 14. lia. }
    destruct Hex as [c Hc]. rewrite Hc. split; [discriminate | lia].
Qed.


(** ** Formatting *)

Lemma string_length_append (s1 s2 : string) :
  String.length (s1 ++ s2) = (String.length s1 + String.length s2)%nat.
Proof. induction s1 as [| c s1 IH]; cbn; congruence. Qed.

Lemma zeros_length (k : nat) : String.length (zeros k) = k.
Proof. induction k as [| k IH]; cbn; congruence. Qed.

Lemma zeros_shift (k : nat) (v : string) :
  (zeros k ++ ("0" ++ v))%string = ("0" ++ (zeros k ++ v))%string.
Proof. induction k as [| k IH]; cbn in *; congruence. Qed.

Lemma leftZeroPadTo_loop_eq (fuel : nat) : forall (value : string) (digits : Z),
  (Z.to_nat digits - String.length value <= fuel)%nat ->
  leftZeroPadTo_loop fuel value digits
  = (zeros (Z.to_nat digits - String.length value) ++ value)%string.
Proof.
  induction fuel as [| fuel IH]; intros value digits Hf.
  - replace (Z.to_nat digits - String.length value)%nat with O by lia.
    reflexivity.
  - cbn [leftZeroPadTo_loop].
    destruct (Z.ltb_spec (Z.of_nat (String.length value)) digits) as [Hlt | Hge].
    + rewrite IH by (cbn [String.length append]; lia).
      cbn [String.length append].
      replace (Z.to_nat digits - String.length value)%nat
        with (S (Z.to_nat digits - S (String.length value))) by lia.
      cbn [zeros]. apply (zeros_shift _ value).
    + replace (Z.to_nat digits - String.length value)%nat with O by lia.
      reflexivity.
Qed.

Lemma leftZeroPadTo_spec (inp digits : Z) :
  leftZeroPadTo inp digits
  = (zeros (Z.to_nat digits - String.length (numberToString inp))
     ++ numberToString inp)%string /\
  String.length (leftZeroPadTo inp digits)
  = Nat.max (String.length (numberToString inp)) (Z.to_nat digits).
Proof.
  assert (E : leftZeroPadTo inp digits
              = (zeros (Z.to_nat digits - String.length (numberToString inp))
                 ++ numberToString inp)%string).
  { unfold leftZeroPadTo. apply leftZeroPadTo_loop_eq. lia. }
  split; [exact E |].
  rewrite E, string_length_append, zeros_length. lia.
Qed.

(** X17. [leftZeroPadTo(inp, digits)] is the decimal text of [inp] with
    just enough zeros in front to reach [digits] characters, and the text
    alone when it is that long already (a minus sign counts, and comes
    after the zeros); its length is the larger of the two. *)
Theorem leftZeroPadTo_eq (inp digits : Z) :
  leftZeroPadTo inp digits
  = (zeros (Z.to_nat digits - String.length (numberToString inp))
     ++ numberToString inp)%string /\
  String.length (leftZeroPadTo inp digits)
  = Nat.max (String.length (numberToString inp)) (Z.to_nat digits).
Proof. exact (leftZeroPadTo_spec inp digits). Qed.

(** Numbers up to 9999 have at most four digits, those up to 99 at most two. *)
Lemma numberToString_length (n : Z) :
  0 <= n <= 9999 ->
  (String.length (numberToString n) <= 4)%nat /\
  (n <= 99 -> (String.length (numberToString n) <= 2)%nat).
Proof.
  intros Hn.
  assert (Hall : forallb
                   (fun k => Nat.leb (String.length (numberToString (Z.of_nat k))) 4
                             && ((100 <=? Z.of_nat k)
                                 || Nat.leb (String.length
                                               (numberToString (Z.of_nat k))) 2))
                   (seq 0 (Z.to_nat 10000)) = true) by (vm_compute; reflexivity).
  rewrite forallb_forall in Hall.
  specialize (Hall (Z.to_nat n)).
  rewrite Z2Nat.id in Hall by lia.
  assert (Hin : In (Z.to_nat n) (seq 0 (Z.to_nat 10000))) by (apply in_seq; lia).
  apply Hall in Hin. apply andb_true_iff in Hin. destruct Hin as [H4 H2].
  apply Nat.leb_le in H4. split; [exact H4 |]. intros H99.
  apply orb_true_iff in H2. destruct H2 as [H2 | H2].
  - apply Z.leb_le in H2. lia.
  - apply Nat.leb_le in H2. exact H2.
Qed.

Lemma leftZeroPadTo_2_length (n : Z) :
  0 <= n <= 99 -> String.length (leftZeroPadTo n 2) = 2%nat.
Proof.
  intros Hn. rewrite (proj2 (leftZeroPadTo_spec n 2)).
  destruct (numberToString_length n ltac:(lia)) as [_ H2].
  specialize (H2 ltac:(lia)). change (Z.to_nat 2) with 2%nat. lia.
Qed.

Lemma leftZeroPadTo_4_length (n : Z) :
  0 <= n <= 9999 -> String.length (leftZeroPadTo n 4) = 4%nat.
Proof.
  intros Hn. rewrite (proj2 (leftZeroPadTo_spec n 4)).
  destruct (numberToString_length n Hn) as [H4 _].
  change (Z.to_nat 4) with 4%nat. lia.
Qed.

(** X18. When the clock shows an instant within the ranges written on
    [DateTime], in a year from 0 to 9999, the formatted texts have a fixed
    width: [time(HHMM24hr)] has 8 characters, [date(YYYY_MM_DD)] has 10 and
    [dateTime()] has 19. *)
Theorem formatted_widths (w : Device) :
  let t := timeFor (clock w) (readingOf w) in
  0 <= year t <= 9999 -> 1 <= month t <= 12 -> 1 <= day t <= 31 ->
  0 <= hour t <= 23 -> 0 <= minute t <= 59 -> 0 <= second t <= 59 ->
  (exists s, time HHMM24hr w = Some (s, w) /\ String.length s = 8%nat) /\
  (exists s, date YYYY_MM_DD w = Some (s, w) /\ String.length s = 10%nat) /\
  (exists s, dateTime w = Some (s, w) /\ String.length s = 19%nat).
Proof.
  intros t Hy Hmo Hd Hh Hmi Hs.
  assert (Ft : String.length (fullTime t) = 8%nat).
  { unfold fullTime. rewrite !string_length_append.
    rewrite !leftZeroPadTo_2_length by lia. reflexivity. }
  assert (Fy : String.length (fullYear t) = 10%nat).
  { unfold fullYear. rewrite !string_length_append.
    rewrite !leftZeroPadTo_2_length by lia.
    rewrite leftZeroPadTo_4_length by lia. reflexivity. }
  repeat split.
  - exists (fullTime t). split; [reflexivity | exact Ft].
  - exists (fullYear t). split; [reflexivity | exact Fy].
  - exists (fullYear t ++ " " ++ fullTime t)%string. split; [reflexivity |].
    rewrite !string_length_append, Ft, Fy. reflexivity.
Qed.

Lemma formatted_widths_witness :
  (exists s, time HHMM24hr (mkDevice (mkClockState 2024 3723 0) 0 [])
             = Some (s, mkDevice (mkClockState 2024 3723 0) 0 [])
             /\ String.length s = 8%nat) /\
  (exists s, date YYYY_MM_DD (mkDevice (mkClockState 2024 3723 0) 0 [])
             = Some (s, mkDevice (mkClockState 2024 3723 0) 0 [])
             /\ String.length s = 10%nat) /\
  (exists s, dateTime (mkDevice (mkClockState 2024 3723 0) 0 [])
             = Some (s, mkDevice (mkClockState 2024 3723 0) 0 [])
             /\ String.length s = 19%nat).
Proof.
  apply (formatted_widths (mkDevice (mkClockState 2024 3723 0) 0 []));
    vm_compute; split; discriminate.
Defined.

(** X19. While the instant lies in [startYear], [setTime] with a PM hour
    1..12, or with 12 AM, followed by [time(AMPM)] shows the hour that was
    given, the minute and second on two digits, and the same am/pm. *)
Theorem setTime_then_time_AMPM (hh mm ss : Z) (w : Device) :
  0 <= secondsAt (clock w) (readingOf w)
    < (if isLeapYear (startYear (clock w)) then 366 else 365) * 86400 ->
  1 <= hh <= 12 -> 0 <= mm <= 59 -> 0 <= ss <= 59 ->
  option_map fst ((setTime hh mm ss PM ;;; time AMPM) w)
  = Some (numberToString hh ++ ":" ++ leftZeroPadTo mm 2 ++ "."
          ++ leftZeroPadTo ss 2 ++ "pm")%string /\
  option_map fst ((setTime 12 mm ss AM ;;; time AMPM) w)
  = Some ("12:" ++ leftZeroPadTo mm 2 ++ "." ++ leftZeroPadTo ss 2 ++ "am")%string.
Proof.
  intros Hs Hh Hm Hsec.
  assert (Hs' : 0 <= timeToSetpoint (clock w)
                     + (readingOf w - cpuTimeAtSetpoint (clock w))
                < secondsInYear (isLeapYear (startYear (clock w)))).
  { unfold secondsAt in Hs. unfold secondsInYear.
    destruct (isLeapYear (startYear (clock w))); lia. }
  assert (Hshow : forall h24,
             0 <= h24 <= 23 ->
             option_map fst ((set24HourTime h24 mm ss ;;; time AMPM) w)
             = Some (numberToString
                       (if (h24 =? 0)%Z then 12%Z
                        else if (h24 >? 12)%Z then (h24 - 12)%Z else h24)
                     ++ ":" ++ leftZeroPadTo mm 2 ++ "." ++ leftZeroPadTo ss 2
                     ++ (if (h24 <? 12)%Z then "am" else "pm"))%string).
  { intros h24 H24.
    destruct (set24HourTime_same_year h24 mm ss w Hs' H24 Hm Hsec)
      as (w' & E & Er & Ht).
    unfold bind. rewrite E. unfold time. run_M. fold (readingOf w').
    rewrite Er, Ht. reflexivity. }
  unfold bind in *. rewrite !setTime_eq. cbv iota. split.
  - destruct (Z.ltb_spec hh 12) as [Hlt | Hge].
    + rewrite Hshow by lia.
      replace (hh + 12 =? 0) with false by (symmetry; apply Z.eqb_neq; lia).
      replace (hh + 12 >? 12) with true
        by (symmetry; rewrite Z.gtb_ltb; apply Z.ltb_lt; lia).
      replace (hh + 12 <? 12) with false by (symmetry; apply Z.ltb_ge; lia).
      replace (hh + 12 - 12) with hh by lia. reflexivity.
    + assert (hh = 12) by lia. subst hh. rewrite Hshow by lia. reflexivity.
  - change (12 =? 12) with true. cbv iota. rewrite Hshow by lia. reflexivity.
Qed.

Lemma setTime_then_time_AMPM_witness :
  option_map fst ((setTime 1 0 0 PM ;;; time AMPM)
                    (mkDevice (mkClockState 2024 0 0) 0 []))
  = Some (numberToString 1 ++ ":" ++ leftZeroPadTo 0 2 ++ "."
          ++ leftZeroPadTo 0 2 ++ "pm")%string /\
  option_map fst ((setTime 12 0 0 AM ;;; time AMPM)
                    (mkDevice (mkClockState 2024 0 0) 0 []))
  = Some ("12:" ++ leftZeroPadTo 0 2 ++ "." ++ leftZeroPadTo 0 2 ++ "am")%string.
Proof.
  apply (setTime_then_time_AMPM 1 0 0 (mkDevice (mkClockState 2024 0 0) 0 []));
    [vm_compute; split; [discriminate | reflexivity] | lia | lia | lia].
Defined.


(** ** The weekday number *)

(** X20. [dayOfWeek] is used with the calendar month as it is: within a
    month the next day adds 1 to it (it is not reduced modulo 7), and from
    the last day of month [m] to the first day of month [m + 1] of a year
    it advances by 1 modulo 7 exactly for [m] = 1, 3, 4, 5, 8, 9 and 10,
    and by another amount after February, June, July and November. *)
Theorem dayOfWeek_steps (m d y : Z) :
  dayOfWeek m (d + 1) y = dayOfWeek m d y + 1 /\
  (1 <= m <= 11 ->
   ((dayOfWeek (m + 1) 1 y - dayOfWeek m (daysInMonth m y) y) mod 7 = 1
    <-> (m = 1 \/ m = 3 \/ m = 4 \/ m = 5 \/ m = 8 \/ m = 9 \/ m = 10))).
Proof.
  split; [unfold dayOfWeek; cbv zeta; lia |].
  intros Hm. unfold dayOfWeek. cbv zeta.
  set (D := js_rem y 100). set (C := Math_idiv y 100).
  set (A := Math_idiv D 4). set (B := Math_idiv C 4).
  clearbody A B. clearbody D C.
  assert (Hm' : 1 <= m <= 12) by lia.
  month_cases m; try lia.
  all: repeat match goal with
              | |- context [Math_idiv (13 * ?k - 1) 5] =>
                  let v := eval vm_compute in (Math_idiv (13 * k - 1) 5) in
                  change (Math_idiv (13 * k - 1) 5) with v
              end.
  all: cbn [daysInMonth]; try destruct (isLeapYear y).
  all: split; intros H; Z.to_euclidean_division_equations; lia.
Qed.

Lemma dayOfWeek_steps_witness :
  (dayOfWeek (2 + 1) 1 2023 - dayOfWeek 2 (daysInMonth 2 2023) 2023) mod 7 = 1
  <-> (2 = 1 \/ 2 = 3 \/ 2 = 4 \/ 2 = 5 \/ 2 = 8 \/ 2 = 9 \/ 2 = 10).
Proof.
  apply (proj2 (dayOfWeek_steps 2 28 2023)). lia.
Defined.
